(** * Fire Station Command Center: a shallow embedding of [app.py]

    The program is one Python module: three tables ([vehicles],
    [equipment_list], the global [incident_log]), the route policy
    [ai_route], two chart helpers, the map helper [generate_map] and the
    handler [dispatch_incident] that the form calls once per submission.

    Modelling choices.
    - Python values that reach the handler are [pyval]: [None], an [int], a
      [float] or a [str].  Strings are their UTF-8 bytes.  The incident
      type, the severity, the two coordinates and the water may be any such
      value; the equipment is a list of strings, as the checkbox group
      sends it.
    - The builtins the source calls directly ([float], [str] as f-strings
      apply it, [str.join], [==], [list.append], dict subscription,
      [random.choice], [random.randint], [time.sleep]) are modelled with the
      exceptions they raise, for CPython 3.11 with its Unicode tables and
      its limit of 4300 digits on printing an [int].
    - The globals and the outside world are an explicit [world]: the
      history list, the random source, the seconds slept, the file
      [/tmp/map.html] and the installed libraries.  A computation is
      [world -> result A * world]; the world a raised exception leaves
      behind is kept, as Python keeps it.
    - pandas and matplotlib are modelled by the data the source hands them
      (which rows a frame is built from, what a figure holds).  Whether
      they raise on given data is not decided here: the world carries their
      answer ([frame_error], [render_error]), and the theorems hold for
      every answer.  folium is modelled by the children a map is given; it
      refuses a NaN coordinate. *)

From Stdlib Require Import String Ascii List ZArith NArith Arith Bool Lia.
From Stdlib Require Import DecimalString.
Import ListNotations.
Open Scope string_scope.

(* ================================================================== *)
(** ** Python values *)

(** A [float].  The program never computes with floats: it reads them,
    stores them and prints them.  A finite float is kept as a decimal
    [(-1)^neg * m * 10^e] that denotes it: the float is the binary64 value
    nearest to that decimal (ties to even), which is infinite when the
    decimal is beyond the range.  Printing goes through that binary64
    value. *)
Inductive pyfloat : Type :=
| FNan
| FInf (neg : bool)
| FDec (neg : bool) (m : N) (e : Z).

Inductive number : Type :=
| NInt (z : Z)
| NFloat (f : pyfloat).

Inductive pyval : Type :=
| VNone
| VNum (n : number)
| VStr (s : string).

Inductive exn : Type :=
| ValueError
| TypeError
| OverflowError
| KeyError
| IndexError.

Inductive result (A : Type) : Type :=
| Ok (a : A)
| Raise (e : exn).

Arguments Ok {A} a.
Arguments Raise {A} e.

Definition is_ok {A} (r : result A) : bool :=
  match r with Ok _ => true | Raise _ => false end.

Definition result_map {A B} (f : A -> B) (r : result A) : result B :=
  match r with Ok a => Ok (f a) | Raise e => Raise e end.

Definition result_bind {A B} (r : result A) (k : A -> result B) : result B :=
  match r with Ok a => k a | Raise e => Raise e end.

Notation "x <-- r ;; k" := (result_bind r (fun x => k))
  (at level 61, r at next level, right associativity).

(** The exception a computation ended with, if any. *)
Definition outcome {A} (r : result A) : option exn :=
  match r with Ok _ => None | Raise e => Some e end.

(* ------------------------------------------------------------------ *)
(** *** Characters *)

Definition is_space (c : ascii) : bool :=
  let n := nat_of_ascii c in (((9 <=? n) && (n <=? 13)) || (n =? 32))%nat.

Definition is_digit (c : ascii) : bool :=
  let n := nat_of_ascii c in ((48 <=? n) && (n <=? 57))%nat.

Definition digit_val (c : ascii) : N := N.of_nat (nat_of_ascii c - 48).

Definition to_lower (c : ascii) : ascii :=
  let n := nat_of_ascii c in
  if ((65 <=? n) && (n <=? 90))%nat then ascii_of_nat (n + 32) else c.

Definition chars (s : string) : list ascii := list_ascii_of_string s.

Definition is_ascii_byte (c : ascii) : bool := (N_of_ascii c <? 128)%N.

(** The code points of a UTF-8 text, read byte by byte.  The state is the
    number of continuation bytes still expected and the bits read so far.
    A byte that fits nowhere gives the replacement character; a Python
    string never holds one. *)
Definition is_cont (n : N) : bool := ((128 <=? n) && (n <? 192))%N.

Definition replacement : N := 65533%N.

Definition utf8_lead (n : N) : (nat * N) * list N :=
  if (n <? 128)%N then ((0, 0%N), [n])
  else if ((194 <=? n) && (n <? 224))%N then ((1, (n - 192)%N), [])
  else if ((224 <=? n) && (n <? 240))%N then ((2, (n - 224)%N), [])
  else if ((240 <=? n) && (n <? 245))%N then ((3, (n - 240)%N), [])
  else ((0, 0%N), [replacement]).

Definition utf8_step (st : nat * N) (b : ascii) : (nat * N) * list N :=
  let n := N_of_ascii b in
  match st with
  | (O, _) => utf8_lead n
  | (S k, acc) =>
      if is_cont n then
        let acc' := (acc * 64 + (n - 128))%N in
        match k with
        | O => ((0, 0%N), [acc'])
        | S _ => ((k, acc'), [])
        end
      else
        let '(st', out) := utf8_lead n in (st', replacement :: out)
  end.

Fixpoint utf8_run (st : nat * N) (l : list ascii) : list N :=
  match l with
  | [] => match fst st with O => [] | S _ => [replacement] end
  | b :: l' => let '(st', out) := utf8_step st b in (out ++ utf8_run st' l')%list
  end.

Definition utf8_decode (l : list ascii) : list N := utf8_run (0, 0%N) l.

(** The decimal digits of Unicode 14 beyond ASCII come in runs of ten,
    from the digit zero on; these are the zeros. *)
Definition decimal_zeros : list N :=
  [
    1632; 1776; 1984; 2406; 2534; 2662; 2790; 2918;
    3046; 3174; 3302; 3430; 3558; 3664; 3792; 3872;
    4160; 4240; 6112; 6160; 6470; 6608; 6784; 6800;
    6992; 7088; 7232; 7248; 42528; 43216; 43264; 43472;
    43504; 43600; 44016; 65296; 66720; 68912; 69734; 69872;
    69942; 70096; 70384; 70736; 70864; 71248; 71360; 71472;
    71904; 72016; 72784; 73040; 73120; 92768; 92864; 93008;
    120782; 120792; 120802; 120812; 120822; 123200; 123632; 125264;
    130032
  ]%N.

Definition unicode_decimal (c : N) : option N :=
  match find (fun z => (z <=? c) && (c <? z + 10))%N decimal_zeros with
  | Some z => Some (c - z)%N
  | None => None
  end.

(** White space beyond ASCII. *)
Definition unicode_isspace (c : N) : bool :=
  existsb (N.eqb c) [133; 160; 5760; 8232; 8233; 8239; 8287; 12288]%N
  || ((8192 <=? c) && (c <=? 8202))%N.

(** What [float] does to a text that is not all ASCII before it reads it:
    white space becomes a blank, a decimal digit its ASCII digit, and the
    first other character beyond ASCII becomes a question mark that ends
    the text. *)
Fixpoint decimal_and_space_to_ascii (cps : list N) : list ascii :=
  match cps with
  | [] => []
  | c :: rest =>
      if (c <? 127)%N then ascii_of_N c :: decimal_and_space_to_ascii rest
      else if unicode_isspace c then " "%char :: decimal_and_space_to_ascii rest
      else
        match unicode_decimal c with
        | Some d => ascii_of_N (48 + d) :: decimal_and_space_to_ascii rest
        | None => ["?"%char]
        end
  end.

(* ------------------------------------------------------------------ *)
(** *** [float(x)]

    For a [str]: a text beyond ASCII is first brought to ASCII as above;
    surrounding white space is dropped, underscores are accepted between
    digits only, and what remains must be, as a whole, either a decimal
    numeral with at least one digit and an optional exponent, or a signed
    [inf], [infinity] or [nan] in any letter case. *)

Fixpoint lstrip (l : list ascii) : list ascii :=
  match l with
  | c :: l' => if is_space c then lstrip l' else l
  | [] => []
  end.

Definition strip (l : list ascii) : list ascii :=
  rev (lstrip (rev (lstrip l))).

(** The underscore filter: an underscore must follow a digit and be
    followed by a digit; [prev] is the character before [l]. *)
Fixpoint drop_underscores (prev : ascii) (l : list ascii) : option (list ascii) :=
  match l with
  | [] => if Ascii.eqb prev "_" then None else Some []
  | c :: l' =>
      if Ascii.eqb c "_" then
        if is_digit prev then drop_underscores c l' else None
      else if Ascii.eqb prev "_" && negb (is_digit c) then None
      else option_map (cons c) (drop_underscores c l')
  end.

Definition take_sign (l : list ascii) : bool * list ascii :=
  match l with
  | c :: l' =>
      if Ascii.eqb c "-" then (true, l')
      else if Ascii.eqb c "+" then (false, l')
      else (false, l)
  | [] => (false, [])
  end.

(** Reads a run of digits: the number read on top of [acc], how many
    digits were read, and the rest. *)
Fixpoint take_digits (l : list ascii) (acc : N) (cnt : nat) : N * nat * list ascii :=
  match l with
  | c :: l' =>
      if is_digit c then take_digits l' (acc * 10 + digit_val c)%N (S cnt)
      else (acc, cnt, l)
  | [] => (acc, cnt, [])
  end.

Fixpoint match_nocase (pat l : list ascii) : option (list ascii) :=
  match pat, l with
  | [], _ => Some l
  | p :: pat', c :: l' =>
      if Ascii.eqb p (to_lower c) then match_nocase pat' l' else None
  | _ :: _, [] => None
  end.

Definition parse_inf_or_nan (l : list ascii) : option pyfloat :=
  let '(neg, l1) := take_sign l in
  match match_nocase (chars "inf") l1 with
  | Some l2 =>
      let l3 := match match_nocase (chars "inity") l2 with
                | Some l3 => l3
                | None => l2
                end in
      match l3 with [] => Some (FInf neg) | _ :: _ => None end
  | None =>
      match match_nocase (chars "nan") l1 with
      | Some [] => Some FNan
      | _ => None
      end
  end.

Definition take_exponent (l : list ascii) : Z * list ascii :=
  match l with
  | c :: l' =>
      if Ascii.eqb (to_lower c) "e" then
        let '(eneg, l1) := take_sign l' in
        let '(ev, cnt, l2) := take_digits l1 0%N 0 in
        match cnt with
        | O => (0%Z, l)
        | S _ => ((if eneg then - Z.of_N ev else Z.of_N ev)%Z, l2)
        end
      else (0%Z, l)
  | [] => (0%Z, [])
  end.

Definition parse_decimal (l : list ascii) : option pyfloat :=
  let '(neg, l1) := take_sign l in
  let '(ip, ni, l2) := take_digits l1 0%N 0 in
  let '(m, nf, l3) :=
    match l2 with
    | c :: l2' => if Ascii.eqb c "." then take_digits l2' ip 0 else (ip, 0, l2)
    | [] => (ip, 0, [])
    end in
  match ni + nf with
  | O => None
  | S _ =>
      let '(ex, l4) := take_exponent l3 in
      match l4 with
      | [] => Some (FDec neg m (ex - Z.of_nat nf))
      | _ :: _ => None
      end
  end.

Definition float_of_string (s : string) : result pyfloat :=
  let bytes := chars s in
  let text := if forallb is_ascii_byte bytes then bytes
              else decimal_and_space_to_ascii (utf8_decode bytes) in
  match drop_underscores zero (strip text) with
  | None => Raise ValueError
  | Some l =>
      match parse_decimal l with
      | Some f => Ok f
      | None =>
          match parse_inf_or_nan l with
          | Some f => Ok f
          | None => Raise ValueError
          end
      end
  end.

(** An [int] converts unless it rounds beyond the largest binary64, which
    is the case from [2^1024 - 2^970] on. *)
Definition float_overflow_bound : Z := (2 ^ 1024 - 2 ^ 970)%Z.

Definition float_of_int (z : Z) : result pyfloat :=
  if (Z.abs z <? float_overflow_bound)%Z
  then Ok (FDec (z <? 0)%Z (Z.abs_N z) 0)
  else Raise OverflowError.

Definition py_float (v : pyval) : result pyfloat :=
  match v with
  | VNone => Raise TypeError
  | VNum (NInt z) => float_of_int z
  | VNum (NFloat f) => Ok f
  | VStr s => float_of_string s
  end.

(* ------------------------------------------------------------------ *)
(** *** The binary64 value of a decimal, and its shortest decimal *)

(** The magnitude of a binary64 value: zero, infinite, or [q * 2^k] with
    [q < 2^53], and [2^52 <= q] unless [k = -1074]. *)
Inductive binary64 : Type :=
| B_zero
| B_inf
| B_fin (q k : Z).

Definition decimal_of_nat_Z (n : Z) : string :=
  NilEmpty.string_of_uint (N.to_uint (Z.to_N n)).

Definition digits10 (n : Z) : Z := Z.of_nat (String.length (decimal_of_nat_Z n)).

Definition pos_part (z : Z) : Z := Z.max 0 z.

(** [n / d] rounded to the nearest integer, ties to even. *)
Definition round_half_even (n d : Z) : Z :=
  let q := (n / d)%Z in
  let r := (n mod d)%Z in
  if (2 * r <? d)%Z then q
  else if (d <? 2 * r)%Z then (q + 1)%Z
  else if Z.even q then q else (q + 1)%Z.

(** The binary64 value nearest to [m * 10^e], for [0 <= m]. *)
Definition to_binary64 (m e : Z) : binary64 :=
  if (m =? 0)%Z then B_zero
  else
    let nd := digits10 m in
    if (310 <? nd + e)%Z then B_inf
    else if (nd + e <? -330)%Z then B_zero
    else
      let num := (m * 10 ^ pos_part e)%Z in
      let den := (10 ^ pos_part (- e))%Z in
      let b := (Z.log2 num - Z.log2 den)%Z in
      let lg := if (den * 2 ^ pos_part b <=? num * 2 ^ pos_part (- b))%Z
                then b else (b - 1)%Z in
      let k := Z.max (lg - 52) (-1074) in
      let q := round_half_even (num * 2 ^ pos_part (- k)) (den * 2 ^ pos_part k) in
      let k' := if (q =? 2 ^ 53)%Z then (k + 1)%Z else k in
      let q' := if (q =? 2 ^ 53)%Z then (2 ^ 52)%Z else q in
      if (q' =? 0)%Z then B_zero
      else if (971 <? k')%Z then B_inf
      else B_fin q' k'.

Definition binary64_eqb (a b : binary64) : bool :=
  match a, b with
  | B_zero, B_zero => true
  | B_inf, B_inf => true
  | B_fin q k, B_fin q' k' => (q =? q')%Z && (k =? k')%Z
  | _, _ => false
  end.

(** The decimal with [n] digits that reads back as [q * 2^k], if there is
    one, else the search goes on with one digit more; [e10] is the decimal
    exponent of the leading digit.  Of two such decimals the nearer one is
    taken.  Seventeen digits always do. *)
Fixpoint shortest_from (fuel : nat) (n : Z) (q k e10 : Z) : Z * Z :=
  let s := (e10 - n + 1)%Z in
  let num := (q * 2 ^ pos_part k * 10 ^ pos_part (- s))%Z in
  let den := (2 ^ pos_part (- k) * 10 ^ pos_part s)%Z in
  let lo := (num / den)%Z in
  let hi := (lo + 1)%Z in
  let r := (num mod den)%Z in
  let ok_lo := (0 <? lo)%Z && binary64_eqb (to_binary64 lo s) (B_fin q k) in
  let ok_hi := binary64_eqb (to_binary64 hi s) (B_fin q k) in
  let nearer := if (2 * r <? den)%Z then lo
                else if (den <? 2 * r)%Z then hi
                else if Z.even lo then lo else hi in
  match fuel with
  | O => (nearer, s)
  | S fuel' =>
      if ok_lo && ok_hi then (nearer, s)
      else if ok_lo then (lo, s)
      else if ok_hi then (hi, s)
      else shortest_from fuel' (n + 1)%Z q k e10
  end.

Definition shortest_decimal (q k : Z) : Z * Z :=
  let num := (q * 2 ^ pos_part k)%Z in
  let den := (2 ^ pos_part (- k))%Z in
  let t := (digits10 num - digits10 den)%Z in
  let e10 := if (den * 10 ^ pos_part t <=? num * 10 ^ pos_part (- t))%Z
             then t else (t - 1)%Z in
  shortest_from 16 1 q k e10.

(* ------------------------------------------------------------------ *)
(** *** [str(x)], as f-strings apply it *)

Definition decimal_of_int (z : Z) : string := NilZero.string_of_int (Z.to_int z).

(** Printing an [int] of more than 4300 digits raises [ValueError]. *)
Definition max_str_digits : Z := 4300.

Definition str_of_int (z : Z) : result string :=
  if (Z.abs z <? 10 ^ max_str_digits)%Z then Ok (decimal_of_int z)
  else Raise ValueError.

Fixpoint count_zeros (l : list ascii) : nat :=
  match l with
  | c :: l' => if Ascii.eqb c "0" then S (count_zeros l') else 0
  | [] => 0
  end.

Definition zeros (n : nat) : string := string_of_list_ascii (repeat "0"%char n).

(** The digits [m] at the decimal exponent [e], written as [repr] writes
    a float: the point is placed as Python places it, and the exponent
    form is used when the point falls left of [-4] or right of [16]. *)
Definition format_decimal (m : Z) (e : Z) : string :=
  let all := chars (decimal_of_nat_Z m) in
  let k := count_zeros (rev all) in
  let ds := firstn (length all - k) all in
  let n := length ds in
  let decpt := (Z.of_nat n + Z.of_nat k + e)%Z in
  if ((decpt <=? -4) || (16 <? decpt))%Z then
    let ex := (decpt - 1)%Z in
    let mant :=
      match ds with
      | [] => ""
      | [d] => String d ""
      | d :: rest => String d ("." ++ string_of_list_ascii rest)
      end in
    mant ++ "e" ++ (if (ex <? 0)%Z then "-" else "+")
         ++ (if (Z.abs ex <? 10)%Z then "0" else "")
         ++ decimal_of_int (Z.abs ex)
  else if (decpt <=? 0)%Z then
    "0." ++ zeros (Z.to_nat (- decpt)) ++ string_of_list_ascii ds
  else if (decpt <? Z.of_nat n)%Z then
    string_of_list_ascii (firstn (Z.to_nat decpt) ds) ++ "."
      ++ string_of_list_ascii (skipn (Z.to_nat decpt) ds)
  else
    string_of_list_ascii ds ++ zeros (Z.to_nat decpt - n) ++ ".0".

(** [repr] of a float: the shortest decimal that reads back as the same
    binary64 value. *)
Definition float_repr (f : pyfloat) : string :=
  match f with
  | FNan => "nan"
  | FInf neg => if neg then "-inf" else "inf"
  | FDec neg m e =>
      let sign := if neg then "-" else "" in
      match to_binary64 (Z.of_N m) e with
      | B_zero => sign ++ "0.0"
      | B_inf => sign ++ "inf"
      | B_fin q k =>
          let '(c, s) := shortest_decimal q k in
          sign ++ format_decimal c s
      end
  end.

Definition str_of_number (n : number) : result string :=
  match n with
  | NInt z => str_of_int z
  | NFloat f => Ok (float_repr f)
  end.

Definition py_str (v : pyval) : result string :=
  match v with
  | VNone => Ok "None"
  | VNum n => str_of_number n
  | VStr s => Ok s
  end.

(** [sep.join(l)] on a list of strings. *)
Fixpoint join (sep : string) (l : list string) : string :=
  match l with
  | [] => ""
  | [x] => x
  | x :: rest => x ++ sep ++ join sep rest
  end.

(** [v == s] for a string literal [s]: only an equal [str] compares equal. *)
Definition py_eq_str (v : pyval) (s : string) : bool :=
  match v with
  | VStr t => String.eqb t s
  | _ => false
  end.

(** [needle in hay] on strings. *)
Fixpoint str_in (needle hay : string) : bool :=
  prefix needle hay ||
  match hay with
  | EmptyString => false
  | String _ hay' => str_in needle hay'
  end.

(* ================================================================== *)
(** ** Sample data *)

Definition vehicles : list (string * list string) :=
  [ ("🚒 Fire Engine 1", ["Officer A"; "Officer B"; "Officer C"]);
    ("🚒 Fire Engine 2", ["Officer D"; "Officer E"]);
    ("🚑 Rescue Van 1", ["Officer F"; "Officer G"]) ].

Definition equipment_list : list string :=
  [ "🧯 Fire Extinguisher"; "💧 Water Hose"; "🫁 Oxygen Cylinder";
    "✂ Hydraulic Cutter"; "🧤 Protective Gear" ].

(** The keys of a dict, in insertion order. *)
Definition keys {V} (d : list (string * V)) : list string := map fst d.

Definition values {V} (d : list (string * V)) : list V := map snd d.

Fixpoint dict_get {V} (d : list (string * V)) (k : string) : option V :=
  match d with
  | [] => None
  | (k', v) :: d' => if String.eqb k' k then Some v else dict_get d' k
  end.

(** [d[k] = v]: an existing key keeps its place and takes the new value, a
    new key goes last. *)
Fixpoint dict_set {V} (d : list (string * V)) (k : string) (v : V) : list (string * V) :=
  match d with
  | [] => [(k, v)]
  | (k', v') :: d' =>
      if String.eqb k' k then (k', v) :: d' else (k', v') :: dict_set d' k v
  end.

(* ================================================================== *)
(** ** Records, figures and maps *)

(** One row of the history: the dict that [dispatch_incident] builds.  The
    keys "ETA (min)", "Equipment Used" and "Water Used (L)" are the fields
    [ETA_min], [Equipment_Used] and [Water_Used_L].  The water is stored as
    it was passed: the number field of the form sends an [int], a [float],
    or [None] when it was cleared. *)
Record incident_record : Type := mkRecord {
  Incident : pyval;
  Location : string;
  Severity : pyval;
  Vehicle : string;
  Officers : string;
  Route : string;
  ETA_min : Z;
  Equipment_Used : string;
  Water_Used_L : pyval
}.

(** What a matplotlib figure with one axes holds when it is saved.
    [plt.subplots] gives axes that are drawn (frame and ticks); only a call
    that turns them off would clear [axes_on]. *)
Inductive xcoord : Type :=
| XLabel (s : string)
| XIndex (i : nat).

Record bar : Type := mkBar {
  bar_x : xcoord;
  bar_height : pyval;
  bar_color : string
}.

Record text_artist : Type := mkText {
  text_x : pyfloat;
  text_y : pyfloat;
  text_s : string;
  text_ha : string;
  text_va : string
}.

Record figure : Type := mkFigure {
  figsize : Z * Z;
  axes_on : bool;
  texts : list text_artist;
  bars : list bar;
  title : option string;
  xlabel : option string;
  ylabel : option string;
  xticks_rotation : option Z;
  tight_layout : bool
}.

Definition subplots (size : Z * Z) : figure :=
  mkFigure size true [] [] None None None None false.

Definition ax_bar (xs : list xcoord) (hs : list pyval) (color : string)
    (fig : figure) : figure :=
  mkFigure (figsize fig) (axes_on fig) (texts fig)
    (bars fig ++ map (fun xh => mkBar (fst xh) (snd xh) color) (combine xs hs))
    (title fig) (xlabel fig) (ylabel fig) (xticks_rotation fig) (tight_layout fig).

Definition ax_text (x y : pyfloat) (s ha va : string) (fig : figure) : figure :=
  mkFigure (figsize fig) (axes_on fig) (texts fig ++ [mkText x y s ha va]) (bars fig)
    (title fig) (xlabel fig) (ylabel fig) (xticks_rotation fig) (tight_layout fig).

Definition set_title (s : string) (fig : figure) : figure :=
  mkFigure (figsize fig) (axes_on fig) (texts fig) (bars fig)
    (Some s) (xlabel fig) (ylabel fig) (xticks_rotation fig) (tight_layout fig).

Definition set_xlabel (s : string) (fig : figure) : figure :=
  mkFigure (figsize fig) (axes_on fig) (texts fig) (bars fig)
    (title fig) (Some s) (ylabel fig) (xticks_rotation fig) (tight_layout fig).

Definition set_ylabel (s : string) (fig : figure) : figure :=
  mkFigure (figsize fig) (axes_on fig) (texts fig) (bars fig)
    (title fig) (xlabel fig) (Some s) (xticks_rotation fig) (tight_layout fig).

Definition xticks (rotation : Z) (fig : figure) : figure :=
  mkFigure (figsize fig) (axes_on fig) (texts fig) (bars fig)
    (title fig) (xlabel fig) (ylabel fig) (Some rotation) (tight_layout fig).

Definition plt_tight_layout (fig : figure) : figure :=
  mkFigure (figsize fig) (axes_on fig) (texts fig) (bars fig)
    (title fig) (xlabel fig) (ylabel fig) (xticks_rotation fig) true.

(** The PIL image read back from the PNG the figure was saved to. *)
Inductive image : Type := PNG (fig : figure).

(** pandas and matplotlib as installed.  Whether [pd.DataFrame] raises on
    given rows and whether drawing and saving a figure raises is theirs to
    say: [frame_error] and [render_error] give the exception, if any.
    [other_cell col v] is what a frame holds for the value [v] of a column
    [col] that is not made of numbers of 64 bits only. *)
Record library : Type := mkLibrary {
  frame_error : list incident_record -> option exn;
  other_cell : list pyval -> pyval -> pyval;
  render_error : figure -> option exn
}.

(** The column "Water Used (L)" of a frame.  A column of numbers that fit
    64 bits is known: all [int], it is kept; with a [float] among them,
    every [int] becomes the [float] of the same value.  Any other column
    (a [None], a [str], a larger [int]) is the library's. *)
Definition fits_int64 (z : Z) : bool := ((- 2 ^ 63 <=? z) && (z <? 2 ^ 63))%Z.

Definition plain_number (v : pyval) : bool :=
  match v with
  | VNum (NInt z) => fits_int64 z
  | VNum (NFloat _) => true
  | _ => false
  end.

Definition is_int (v : pyval) : bool :=
  match v with VNum (NInt _) => true | _ => false end.

Definition as_float64 (v : pyval) : pyval :=
  match v with
  | VNum (NInt z) => VNum (NFloat (FDec (z <? 0)%Z (Z.abs_N z) 0))
  | _ => v
  end.

Definition frame_column (lib : library) (col : list pyval) : list pyval :=
  if forallb plain_number col then
    if forallb is_int col then col else map as_float64 col
  else map (other_cell lib col) col.

(** [pd.DataFrame(log)] on a list of such dicts: [df_rows] are the dicts
    the frame was built from, in order, the index is [0 .. n-1], and
    [df_water] is the column "Water Used (L)" as the frame holds it.  Every
    row has the nine columns, so the frame is empty exactly when there is
    no row. *)
Record dataframe : Type := mkFrame {
  df_rows : list incident_record;
  df_water : list pyval
}.

Definition DataFrame (lib : library) (log : list incident_record) : result dataframe :=
  match frame_error lib log with
  | Some e => Raise e
  | None => Ok (mkFrame log (frame_column lib (map Water_Used_L log)))
  end.

Definition df_empty (df : dataframe) : bool :=
  match df_rows df with [] => true | _ :: _ => false end.

Definition df_index (df : dataframe) : list nat := seq 0 (length (df_rows df)).

(** Drawing the figure, saving it as PNG and reading the image back. *)
Definition savefig (lib : library) (fig : figure) : result image :=
  match render_error lib fig with
  | Some e => Raise e
  | None => Ok (PNG fig)
  end.

(** A folium map and what was added to it, in order. *)
Definition latlon : Type := (pyfloat * pyfloat)%type.

Inductive map_child : Type :=
| AntPath (locations : list latlon) (color : string) (weight : Z)
| Marker (location : latlon) (tooltip : string) (icon_color : string).

Record folium_map : Type := mkMap {
  map_location : latlon;
  zoom_start : Z;
  children : list map_child
}.

Definition add_to (c : map_child) (m : folium_map) : folium_map :=
  mkMap (map_location m) (zoom_start m) (children m ++ [c]).

Definition is_nan (f : pyfloat) : bool :=
  match f with FNan => true | _ => false end.

(** folium checks every location it is handed, in [Map], [Marker] and
    [AntPath] alike: a NaN coordinate is refused with [ValueError], and so
    is a path without points. *)
Definition validate_location (loc : latlon) : result latlon :=
  if is_nan (fst loc) || is_nan (snd loc) then Raise ValueError else Ok loc.

Fixpoint validate_locations (locs : list latlon) : result (list latlon) :=
  match locs with
  | [] => Ok []
  | loc :: rest =>
      match validate_location loc, validate_locations rest with
      | Ok loc', Ok rest' => Ok (loc' :: rest')
      | Raise e, _ => Raise e
      | Ok _, Raise e => Raise e
      end
  end.

Definition folium_Map (location : latlon) (zoom : Z) : result folium_map :=
  result_map (fun loc => mkMap loc zoom []) (validate_location location).

Definition folium_AntPath (locations : list latlon) (color : string) (weight : Z)
    : result map_child :=
  match locations with
  | [] => Raise ValueError
  | _ :: _ => result_map (fun locs => AntPath locs color weight)
                         (validate_locations locations)
  end.

Definition folium_Marker (location : latlon) (tooltip icon_color : string)
    : result map_child :=
  result_map (fun loc => Marker loc tooltip icon_color) (validate_location location).

Definition is_marker (c : map_child) : bool :=
  match c with Marker _ _ _ => true | AntPath _ _ _ => false end.

Definition markers (m : folium_map) : list map_child := filter is_marker (children m).

Definition paths (m : folium_map) : list map_child :=
  filter (fun c => negb (is_marker c)) (children m).

(* ================================================================== *)
(** ** The world and the computations on it *)

(** [incident_log] is the module's global list.  [rng] is the random
    source: the draws still to come.  [slept] counts the seconds spent in
    [time.sleep].  [tmp_map_html] is the file [/tmp/map.html].  [libs] are
    the installed pandas and matplotlib; nothing changes them. *)
Record world : Type := mkWorld {
  incident_log : list incident_record;
  rng : nat -> nat;
  slept : nat;
  tmp_map_html : option folium_map;
  libs : library
}.

(** The module as loaded: an empty history. *)
Definition start (lib : library) (r : nat -> nat) : world := mkWorld [] r 0 None lib.

Definition M (A : Type) : Type := world -> result A * world.

Definition ret {A} (a : A) : M A := fun w => (Ok a, w).

Definition bind {A B} (c : M A) (k : A -> M B) : M B :=
  fun w =>
    match c w with
    | (Ok a, w') => k a w'
    | (Raise e, w') => (Raise e, w')
    end.

Definition lift {A} (r : result A) : M A := fun w => (r, w).

Notation "x <- c ;; k" := (bind c (fun x => k))
  (at level 61, c at next level, right associativity).
Notation "c ;;; k" := (bind c (fun _ => k))
  (at level 61, right associativity).

Definition time_sleep (secs : nat) : M unit :=
  fun w => (Ok tt, mkWorld (incident_log w) (rng w) (slept w + secs) (tmp_map_html w)
                           (libs w)).

(** The world after one draw was consumed. *)
Definition advance (w : world) : world :=
  mkWorld (incident_log w) (fun i => rng w (S i)) (slept w) (tmp_map_html w) (libs w).

(** A draw below [n]; every value below [n] is a possible outcome. *)
Definition randbelow (n : nat) : M nat :=
  fun w => (Ok (rng w 0 mod n), advance w).

(** [random.choice(seq)]. *)
Definition random_choice {A} (l : list A) : M A :=
  match l with
  | [] => lift (Raise IndexError)
  | _ :: _ =>
      i <- randbelow (length l) ;;
      match nth_error l i with
      | Some a => ret a
      | None => lift (Raise IndexError)
      end
  end.

(** [random.randint(a, b)], both ends included. *)
Definition random_randint (a b : Z) : M Z :=
  if (b <? a)%Z then lift (Raise ValueError)
  else k <- randbelow (Z.to_nat (b - a + 1)) ;; ret (a + Z.of_nat k)%Z.

(** [d[k]] *)
Definition getitem {V} (d : list (string * V)) (k : string) : M V :=
  match dict_get d k with
  | Some v => ret v
  | None => lift (Raise KeyError)
  end.

(** [incident_log.append(record)] *)
Definition log_append (r : incident_record) : M unit :=
  fun w => (Ok tt, mkWorld (incident_log w ++ [r]) (rng w) (slept w) (tmp_map_html w)
                           (libs w)).

Definition read_log : M (list incident_record) := fun w => (Ok (incident_log w), w).

(** [m.save("/tmp/map.html")] *)
Definition save_map (m : folium_map) : M unit :=
  fun w => (Ok tt, mkWorld (incident_log w) (rng w) (slept w) (Some m) (libs w)).

(** [pd.DataFrame(log)] and [fig.savefig] followed by [Image.open], with
    the installed libraries. *)
Definition pd_DataFrame (log : list incident_record) : M dataframe :=
  fun w => (DataFrame (libs w) log, w).

Definition fig_savefig (fig : figure) : M image :=
  fun w => (savefig (libs w) fig, w).

(* ================================================================== *)
(** ** AI route selection *)

Definition ai_route (severity : pyval) : string * Z :=
  if py_eq_str severity "High" then ("🛣 Emergency Green Corridor", 12%Z)
  else if py_eq_str severity "Medium" then ("🛣 Traffic-Aware City Route", 18%Z)
  else ("🛣 Normal Shortest Route", 25%Z).

(* ================================================================== *)
(** ** Charts *)

Definition generate_equipment_chart (equipment_counts : list (string * Z)) : M image :=
  let fig := subplots (5, 3)%Z in
  let fig := ax_bar (map XLabel (keys equipment_counts))
                    (map (fun n => VNum (NInt n)) (values equipment_counts))
                    "tomato" fig in
  let fig := set_title "🧰 Equipment Usage" fig in
  let fig := set_ylabel "Units Used" fig in
  let fig := xticks 15 fig in
  let fig := plt_tight_layout fig in
  fig_savefig fig.

Definition generate_water_chart (log : list incident_record) : M image :=
  df <- pd_DataFrame log ;;
  if df_empty df then
    let fig := subplots (5, 3)%Z in
    let fig := ax_text (FDec false 5 (-1)) (FDec false 5 (-1))
                       "No Incidents Yet" "center" "center" fig in
    fig_savefig fig
  else
    let fig := subplots (5, 3)%Z in
    let fig := ax_bar (map XIndex (df_index df)) (df_water df) "blue" fig in
    let fig := set_title "💧 Water Usage per Incident" fig in
    let fig := set_ylabel "Liters" fig in
    let fig := set_xlabel "Incident #" fig in
    let fig := plt_tight_layout fig in
    fig_savefig fig.

(* ================================================================== *)
(** ** The map of the vehicle movement *)

Definition generate_map (lat lon : pyval) : M string :=
  lat <- lift (py_float lat) ;;
  lon <- lift (py_float lon) ;;
  (* Fire station is fixed location *)
  let station_lat := FDec false 129716 (-4) in
  let station_lon := FDec false 775946 (-4) in
  m <- lift (folium_Map (station_lat, station_lon) 13) ;;
  (* Vehicle movement line *)
  line <- lift (folium_AntPath [(station_lat, station_lon); (lat, lon)] "red" 5) ;;
  let m := add_to line m in
  marker <- lift (folium_Marker (station_lat, station_lon) "Fire Station" "green") ;;
  let m := add_to marker m in
  marker <- lift (folium_Marker (lat, lon) "Incident Location" "red") ;;
  let m := add_to marker m in
  (* Save map as html *)
  let map_path := "/tmp/map.html" in
  save_map m ;;;
  ret map_path.

(* ================================================================== *)
(** ** Dispatch logic with timeline *)

(** [{eq: random.randint(1,3) for eq in equipment}], the value of
    [equipment_count]: filled from left to right on top of [d]. *)
Fixpoint equipment_comprehension (equipment : list string) (d : list (string * Z))
    : M (list (string * Z)) :=
  match equipment with
  | [] => ret d
  | eq :: rest =>
      n <- random_randint 1 3 ;;
      equipment_comprehension rest (dict_set d eq n)
  end.

(** The f-string of the location: the two values printed with a comma and
    a space between them. *)
Definition format_location (latitude longitude : pyval) : result string :=
  s_latitude <-- py_str latitude ;;
  s_longitude <-- py_str longitude ;;
  Ok (s_latitude ++ ", " ++ s_longitude).

(** The report template, for values already printed. *)
Definition report_text (s_incident s_latitude s_longitude s_severity vehicle
    officers route s_eta s_equipment s_water stage_msg : string) : string :=
  "
━━━━━━━━ 🚨 INCIDENT RESPONSE REPORT ━━━━━━━━

🔥 Incident Type : "
  ++ s_incident
  ++ "
📍 Location      : "
  ++ s_latitude
  ++ ", "
  ++ s_longitude
  ++ "
⚠ Severity      : "
  ++ s_severity
  ++ "

🚒 Vehicle       : "
  ++ vehicle
  ++ "
👨‍🚒 Officers    : "
  ++ officers
  ++ "

🛣 AI Route      : "
  ++ route
  ++ "
⏱ ETA           : "
  ++ s_eta
  ++ " minutes

🧰 Equipment Used:
"
  ++ s_equipment
  ++ "
💧 Water Used: "
  ++ s_water
  ++ " Liters

🕒 Timeline:
"
  ++ stage_msg
  ++ "

✅ Status: INCIDENT SUCCESSFULLY RESOLVED
━━━━━━━━━━━━━━━━━━━━━━━━━━━━━━━━━━━━━━━━━━━━
".

(** The f-string of the report: the values are printed from left to right,
    then the text is put together. *)
Definition format_report (incident_type severity latitude longitude : pyval)
    (vehicle officers route : string) (eta : Z) (equipment : list string)
    (water_used_liters : pyval) (stage_msg : string) : result string :=
  s_incident <-- py_str incident_type ;;
  s_latitude <-- py_str latitude ;;
  s_longitude <-- py_str longitude ;;
  s_severity <-- py_str severity ;;
  s_eta <-- str_of_int eta ;;
  s_water <-- py_str water_used_liters ;;
  Ok (report_text s_incident s_latitude s_longitude s_severity vehicle officers
        route s_eta (join ", " equipment) s_water stage_msg).

Definition dispatch_incident (incident_type severity latitude longitude : pyval)
    (equipment : list string) (water_used_liters : pyval)
    : M (string * dataframe * image * image * string) :=
  (* Stage 1: Dispatched *)
  let stage_msg := "🚨 Dispatched: Vehicle is on the way..." in
  time_sleep 1 ;;;
  vehicle <- random_choice (keys vehicles) ;;
  crew <- getitem vehicles vehicle ;;
  let officers := join ", " crew in
  let '(route, eta) := ai_route severity in
  equipment_count <- equipment_comprehension equipment [] ;;
  (* Stage 2: On Scene *)
  let stage_msg := stage_msg ++ "
🟡 On Scene: Firefighters reached incident site..." in
  time_sleep 1 ;;;
  (* Save history *)
  location <- lift (format_location latitude longitude) ;;
  let record :=
    {| Incident := incident_type;
       Location := location;
       Severity := severity;
       Vehicle := vehicle;
       Officers := officers;
       Route := route;
       ETA_min := eta;
       Equipment_Used := join ", " equipment;
       Water_Used_L := water_used_liters |} in
  log_append record ;;;
  log <- read_log ;;
  df <- pd_DataFrame log ;;
  (* Stage 3: Resolved *)
  let stage_msg := stage_msg ++ "
🟢 Resolved: Incident cleared successfully!" in
  time_sleep 1 ;;;
  (* Charts *)
  eq_chart <- generate_equipment_chart equipment_count ;;
  log <- read_log ;;
  water_chart <- generate_water_chart log ;;
  (* Dispatch report *)
  report <- lift (format_report incident_type severity latitude longitude vehicle
                    officers route eta equipment water_used_liters stage_msg) ;;
  map_path <- generate_map latitude longitude ;;
  ret (report, df, eq_chart, water_chart, map_path).

(** The form's button: [dispatch_btn.click(dispatch_incident, ...)].  One
    call of the handler; an exception ends the request, not the process. *)
Record call : Type := mkCall {
  c_incident_type : pyval;
  c_severity : pyval;
  c_latitude : pyval;
  c_longitude : pyval;
  c_equipment : list string;
  c_water_used : pyval
}.

Definition run_call (c : call) : M (string * dataframe * image * image * string) :=
  dispatch_incident (c_incident_type c) (c_severity c) (c_latitude c)
                    (c_longitude c) (c_equipment c) (c_water_used c).

Definition click (w : world) (c : call) : world := snd (run_call c w).

(** A session: the clicks of one process run, in order. *)
Definition session (calls : list call) (w : world) : world := fold_left click calls w.

(** The timeline text once the three stages are through. *)
Definition timeline : string :=
  ("🚨 Dispatched: Vehicle is on the way..." ++ "
🟡 On Scene: Firefighters reached incident site...") ++ "
🟢 Resolved: Incident cleared successfully!".

(* ================================================================== *)
(** ** Vocabulary of the properties *)

(** [w'] differs from [w] at most in the random source. *)
Definition same_store (w w' : world) : Prop :=
  incident_log w' = incident_log w /\
  slept w' = slept w /\
  tmp_map_html w' = tmp_map_html w /\
  libs w' = libs w.

(** An integer from 1 to 3. *)
Definition in_1_3 (v : Z) : Prop := (1 <= v <= 3)%Z.

(** The fixed coordinate of the fire station, and the map drawn for a
    destination. *)
Definition station : latlon := (FDec false 129716 (-4), FDec false 775946 (-4)).

(** [v] is a coordinate the map can be drawn for: [float] turns it into
    the number [f], and [f] is not NaN. *)
Definition is_coordinate (v : pyval) (f : pyfloat) : Prop :=
  py_float v = Ok f /\ is_nan f = false.

Definition movement_map (dest : latlon) : folium_map :=
  mkMap station 13
    [ AntPath [station; dest] "red" 5;
      Marker station "Fire Station" "green";
      Marker dest "Incident Location" "red" ].

(** The destination [generate_map] draws for: [float] of the latitude,
    then [float] of the longitude, then the check of the location. *)
Definition map_destination (lat lon : pyval) : result latlon :=
  match py_float lat with
  | Raise e => Raise e
  | Ok la =>
      match py_float lon with
      | Raise e => Raise e
      | Ok lo => validate_location (la, lo)
      end
  end.

(** The levels the form offers: [gr.Radio(Low, Medium, High)]. *)
Definition severity_levels : list string := ["Low"; "Medium"; "High"].

(** The invariant of the data model: equipment from the catalog, vehicle
    from the roster, severity one of the three levels.  The record keeps
    the equipment as the labels joined by a comma and a space. *)
Definition record_invariant (r : incident_record) : Prop :=
  (exists l, incl l equipment_list /\ Equipment_Used r = join ", " l) /\
  In (Vehicle r) (keys vehicles) /\
  (exists s, In s severity_levels /\ Severity r = VStr s).

(** A call as the form sends it, as far as the invariant goes. *)
Definition valid_call (c : call) : Prop :=
  incl (c_equipment c) equipment_list /\
  (exists s, In s severity_levels /\ c_severity c = VStr s).

(** A library for the examples.  It stands for the installed pandas and
    matplotlib on the data the examples use: a frame is built from the
    rows, a water that is [None] or an [int] from [2^63] on is kept in its
    column as it is, and a figure is drawn unless the height of a bar is
    [None] ([TypeError]) or an [int] from [2^63] on ([OverflowError]).  The
    theorems hold for every library, not for this one only. *)
Definition observed_height_error (v : pyval) : option exn :=
  match v with
  | VNone => Some TypeError
  | VNum (NInt z) => if (2 ^ 63 <=? z)%Z then Some OverflowError else None
  | _ => None
  end.

Fixpoint first_error (l : list (option exn)) : option exn :=
  match l with
  | [] => None
  | Some e :: _ => Some e
  | None :: rest => first_error rest
  end.

Definition observed_library : library :=
  {| frame_error := fun _ => None;
     other_cell := fun _ v => v;
     render_error := fun fig =>
       first_error (map (fun b => observed_height_error (bar_height b)) (bars fig)) |}.

(** A session of two clicks as the form sends them: the second leaves the
    latitude and the equipment empty and has text for a longitude. *)
Definition two_clicks : list call :=
  [ mkCall (VStr "Building Fire") (VStr "High") (VStr "12.97") (VStr "77.59")
           ["🧯 Fire Extinguisher"; "💧 Water Hose"] (VNum (NInt 500));
    mkCall (VStr "") (VStr "Low") (VStr "") (VStr "abc")
           [] (VNum (NFloat (FDec false 500 0))) ].

(** The request of the end-to-end scenario. *)
Definition building_fire : call :=
  mkCall (VStr "Building Fire") (VStr "High")
         (VNum (NFloat (FDec false 129756 (-4))))
         (VNum (NFloat (FDec false 775950 (-4))))
         ["🧯 Fire Extinguisher"] (VNum (NInt 500)).

(** A request with text that is no number for a latitude. *)
Definition bad_latitude : call :=
  mkCall (VStr "Building Fire") (VStr "High") (VStr "abc") (VStr "77.59")
         ["🧯 Fire Extinguisher"] (VNum (NInt 500)).

(** A request made by calling the handler directly: no incident type, a
    blank before the latitude, an [int] for a longitude, a label twice. *)
Definition direct_call : call :=
  mkCall VNone (VStr "Low") (VStr " 12.97") (VNum (NInt 77))
         ["💧 Water Hose"; "💧 Water Hose"] (VNum (NInt 0)).

(** A third click after [two_clicks], with 40 litres. *)
Definition third_click : call :=
  mkCall (VStr "Road Accident") (VStr "Medium") (VStr "12.97") (VStr "77.59")
         ["✂ Hydraulic Cutter"; "💧 Water Hose"; "✂ Hydraulic Cutter"]
         (VNum (NInt 40)).

(** A request without a latitude and with text for a longitude. *)
Definition no_latitude : call :=
  mkCall (VStr "Building Fire") (VStr "High") VNone (VStr "abc") [] (VNum (NInt 500)).

(** The figures the two chart helpers hand to [savefig]. *)
Definition equipment_figure (equipment_counts : list (string * Z)) : figure :=
  mkFigure (5, 3)%Z true []
    (map (fun kv => mkBar (XLabel (fst kv)) (VNum (NInt (snd kv))) "tomato")
         equipment_counts)
    (Some "🧰 Equipment Usage") None (Some "Units Used") (Some 15%Z) true.

Definition placeholder_figure : figure :=
  mkFigure (5, 3)%Z true
    [mkText (FDec false 5 (-1)) (FDec false 5 (-1)) "No Incidents Yet" "center" "center"]
    [] None None None None false.

Definition bars_figure (heights : list pyval) : figure :=
  mkFigure (5, 3)%Z true []
    (map (fun ih => mkBar (XIndex (fst ih)) (snd ih) "blue")
         (combine (seq 0 (length heights)) heights))
    (Some "💧 Water Usage per Incident") (Some "Incident #") (Some "Liters") None true.

Definition water_figure (df : dataframe) : figure :=
  if df_empty df then placeholder_figure else bars_figure (df_water df).

(** What one click draws from the random source: the vehicle is the roster
    key at the first draw, the counts are filled from the draws after it. *)
Definition drawn_vehicle (w : world) : string :=
  nth (rng w 0 mod 3) (keys vehicles) "".

Definition crew_of (vehicle : string) : list string :=
  match dict_get vehicles vehicle with Some crew => crew | None => [] end.

Definition drawn_counts (equipment : list string) (w : world) : list (string * Z) :=
  match fst (equipment_comprehension equipment [] (advance w)) with
  | Ok d => d
  | Raise _ => []
  end.

(** The record a click builds once the location is printed. *)
Definition record_of (c : call) (location : string) (w : world) : incident_record :=
  mkRecord (c_incident_type c) location (c_severity c)
           (drawn_vehicle w) (join ", " (crew_of (drawn_vehicle w)))
           (fst (ai_route (c_severity c))) (snd (ai_route (c_severity c)))
           (join ", " (c_equipment c)) (c_water_used c).

(** What a click appends to the history: its record, or nothing when the
    location cannot be printed. *)
Definition stored (w : world) (c : call) : list incident_record :=
  match format_location (c_latitude c) (c_longitude c) with
  | Ok location => [record_of c location w]
  | Raise _ => []
  end.

Definition history_after (w : world) (c : call) : list incident_record :=
  (incident_log w ++ stored w c)%list.

(** The coordinates of the call can be printed, so that its record is
    stored. *)
Definition stores (c : call) : bool :=
  is_ok (format_location (c_latitude c) (c_longitude c)).

(** The record [r] keeps the arguments of the call [c]. *)
Definition stored_for (c : call) (r : incident_record) : Prop :=
  Incident r = c_incident_type c /\
  format_location (c_latitude c) (c_longitude c) = Ok (Location r) /\
  Severity r = c_severity c /\
  Equipment_Used r = join ", " (c_equipment c) /\
  Water_Used_L r = c_water_used c.

(** All the values the report prints can be printed. *)
Definition values_print (c : call) : bool :=
  is_ok (py_str (c_incident_type c)) && is_ok (py_str (c_latitude c))
  && is_ok (py_str (c_longitude c)) && is_ok (py_str (c_severity c))
  && is_ok (py_str (c_water_used c)).

(** pandas builds the frame of the history the click leaves, and
    matplotlib draws the two charts of the click. *)
Definition libraries_accept (w : world) (c : call) : bool :=
  match DataFrame (libs w) (history_after w c) with
  | Ok df =>
      is_ok (savefig (libs w) (equipment_figure (drawn_counts (c_equipment c) w)))
      && is_ok (savefig (libs w) (water_figure df))
  | Raise _ => false
  end.

(** The click gets as far as the third stage: its record is stored and
    the frame of the history is built. *)
Definition reaches_resolved (w : world) (c : call) : bool :=
  stores c && is_ok (DataFrame (libs w) (history_after w c)).

(** The world a click leaves when it has taken its draws, with the given
    history, seconds and file. *)
Definition after_draws (w : world) (c : call) (log : list incident_record)
    (secs : nat) (file : option folium_map) : world :=
  mkWorld log (fun i => rng w (S (length (c_equipment c) + i))) (slept w + secs)
          file (libs w).

(** The labels of a selection, each once, in the order of their first
    occurrence. *)
Definition add_key (ks : list string) (k : string) : list string :=
  if existsb (fun k' => String.eqb k' k) ks then ks else ks ++ [k].

Definition distinct_in_order (l : list string) : list string :=
  fold_left add_key l [].

(** The draws one click takes from the random source: one for the
    vehicle and one for every selected label. *)
Definition draws_of (c : call) : nat := S (length (c_equipment c)).

Definition draws_of_session (calls : list call) : nat :=
  fold_right (fun c n => draws_of c + n) 0 calls.

(** A record is consistent with the tables: its officers are the crew of
    its vehicle, and its route and minutes are those of its severity. *)
Definition record_consistent (r : incident_record) : bool :=
  match dict_get vehicles (Vehicle r) with
  | Some crew =>
      String.eqb (Officers r) (join ", " crew)
      && String.eqb (Route r) (fst (ai_route (Severity r)))
      && Z.eqb (ETA_min r) (snd (ai_route (Severity r)))
  | None => false
  end.

(** A run of [n] blanks. *)
Definition blanks (n : nat) : string := string_of_list_ascii (repeat " "%char n).

(* ================================================================== *)
(** ** The builtins on samples *)

Example float_of_decimal_text :
  py_float (VStr "12.97") = Ok (FDec false 1297 (-2)) /\
  py_float (VStr "  -1_000.5e-3 ") = Ok (FDec true 10005 (-4)) /\
  py_float (VStr ".5E+2") = Ok (FDec false 5 1) /\
  py_float (VStr "1.") = Ok (FDec false 1 0) /\
  py_float (VStr "-Infinity") = Ok (FInf true) /\
  py_float (VStr "NaN") = Ok FNan.
Proof. repeat split. Qed.

(** Digits and white space beyond ASCII are read as well: full-width
    digits, a no-break space and an ideographic space, Arabic-Indic
    digits; a full-width full stop or an accented letter is not. *)
Example float_of_unicode_text :
  py_float (VStr "１２.９７") = Ok (FDec false 1297 (-2)) /\
  py_float (VStr " 12.5　") = Ok (FDec false 125 (-1)) /\
  py_float (VStr "٣.٥") = Ok (FDec false 35 (-1)) /\
  py_float (VStr "１２．５") = Raise ValueError /\
  py_float (VStr "12é") = Raise ValueError.
Proof. repeat split. Qed.

Example float_refuses :
  py_float (VStr "abc") = Raise ValueError /\
  py_float (VStr "") = Raise ValueError /\
  py_float (VStr "12,97") = Raise ValueError /\
  py_float (VStr "1__0") = Raise ValueError /\
  py_float (VStr "1e") = Raise ValueError /\
  py_float (VStr "0x10") = Raise ValueError /\
  py_float (VStr "1 2") = Raise ValueError /\
  py_float VNone = Raise TypeError /\
  py_float (VNum (NInt (2 ^ 1024))) = Raise OverflowError.
Proof. repeat split. Qed.

Example float_of_numbers :
  py_float (VNum (NInt (-3))) = Ok (FDec true 3 0) /\
  py_float (VNum (NInt (2 ^ 1023))) = Ok (FDec false (2 ^ 1023) 0) /\
  py_float (VNum (NFloat (FDec false 775950 (-4)))) = Ok (FDec false 775950 (-4)).
Proof. repeat split. Qed.

Example str_of_floats :
  float_repr (FDec false 129756 (-4)) = "12.9756" /\
  float_repr (FDec false 775950 (-4)) = "77.595" /\
  float_repr (FDec false 500 0) = "500.0" /\
  float_repr (FDec false 1 (-4)) = "0.0001" /\
  float_repr (FDec false 15 (-6)) = "1.5e-05" /\
  float_repr (FDec true 1 16) = "-1e+16" /\
  float_repr (FDec true 0 0) = "-0.0" /\
  float_repr (FDec false 1 400) = "inf" /\
  float_repr (FDec false 1 (-400)) = "0.0" /\
  float_repr (FDec false 9007199254740993 0) = "9007199254740992.0" /\
  float_repr (FDec false 30000000000000004 (-17)) = "0.30000000000000004".
Proof. vm_compute. repeat split. Qed.

(** An [int] prints up to 4300 digits. *)
Example str_of_large_int :
  py_str (VNum (NInt 500)) = Ok "500" /\
  py_str (VNum (NInt (-12))) = Ok "-12" /\
  is_ok (py_str (VNum (NInt (10 ^ 4300 - 1)))) = true /\
  py_str (VNum (NInt (10 ^ 4300))) = Raise ValueError /\
  py_str (VNum (NInt (- 10 ^ 4300))) = Raise ValueError /\
  py_float (VNum (NInt (10 ^ 4300))) = Raise OverflowError.
Proof. vm_compute. repeat split. Qed.

Example join_and_in :
  join ", " ["Officer D"; "Officer E"] = "Officer D, Officer E" /\
  join ", " [] = "" /\
  str_in "12 minutes" "ETA : 12 minutes" = true /\
  str_in "12 minutes" "ETA : 120 minutes" = false.
Proof. repeat split. Qed.

(** A later value for a key overwrites the earlier one in place. *)
Example dict_set_twice :
  dict_set (dict_set (dict_set [] "a" 1%Z) "b" 2%Z) "a" 3%Z = [("a", 3%Z); ("b", 2%Z)].
Proof. reflexivity. Qed.

(** A column of [int]s is kept, a column with a [float] in it is all
    [float], whatever the library. *)
Example frame_column_samples (lib : library) :
  frame_column lib [VNum (NInt 500); VNum (NInt 40)] = [VNum (NInt 500); VNum (NInt 40)] /\
  frame_column lib [VNum (NInt 500); VNum (NFloat (FDec false 500 0)); VNum (NInt 40)]
  = [VNum (NFloat (FDec false 500 0)); VNum (NFloat (FDec false 500 0));
     VNum (NFloat (FDec false 40 0))] /\
  frame_column lib [] = [].
Proof. repeat split. Qed.

(** The random source is not restricted: every number below [n] is drawn
    by some source. *)
Lemma randbelow_any (n k : nat) (w : world) :
  k < n ->
  fst (randbelow n (mkWorld (incident_log w) (fun _ => k) (slept w) (tmp_map_html w)
                            (libs w)))
  = Ok k.
Proof.
  intros H. unfold randbelow. cbn [fst rng]. rewrite Nat.mod_small by exact H.
  reflexivity.
Qed.

(* ================================================================== *)
(** ** Strings *)

Ltac split_all := repeat match goal with |- _ /\ _ => split end.

Lemma prefix_app (n b : string) : prefix n (n ++ b) = true.
Proof.
  induction n as [|c n IH]; simpl.
  - destruct b; reflexivity.
  - destruct (ascii_dec c c) as [_|N]; [exact IH | now elim N].
Qed.

Lemma str_in_eq (n h : string) :
  str_in n h =
  prefix n h || match h with EmptyString => false | String _ h' => str_in n h' end.
Proof. destruct h; reflexivity. Qed.

Lemma str_in_here (n b : string) : str_in n (n ++ b) = true.
Proof. rewrite str_in_eq, prefix_app. reflexivity. Qed.

Lemma str_in_app_r (n a b : string) : str_in n b = true -> str_in n (a ++ b) = true.
Proof.
  intros H. induction a as [|c a IH]; simpl; [exact H|].
  rewrite IH. apply orb_true_r.
Qed.

Lemma append_assoc_r (a b c : string) : (a ++ b) ++ c = a ++ (b ++ c).
Proof. induction a as [|x a IH]; simpl; [reflexivity | now rewrite IH]. Qed.

Lemma prefix_skip (s x y : string) :
  prefix x y = true -> prefix (s ++ x) (s ++ y) = true.
Proof.
  intros H. induction s as [|c s IH]; simpl; [exact H|].
  destruct (ascii_dec c c) as [_|N]; [exact IH | now elim N].
Qed.

(** The needle [s ++ x] sits where a literal ends with [s] and [x] goes on
    from there. *)
Lemma str_in_mid (p s x y : string) :
  prefix x y = true -> str_in (s ++ x) ((p ++ s) ++ y) = true.
Proof.
  intros H. rewrite append_assoc_r. apply str_in_app_r.
  rewrite str_in_eq, (prefix_skip s x y H). reflexivity.
Qed.

Ltac solve_prefix :=
  first [ apply prefix_app | reflexivity | apply prefix_skip; solve_prefix ].

Ltac find_line p s :=
  lazymatch goal with
  | |- str_in _ (?h ++ _) = true =>
      let ps := eval compute in (p ++ s) in
      tryif constr_eq h ps
      then (apply (str_in_mid p s); solve [solve_prefix])
      else (apply str_in_app_r; find_line p s)
  end.

Ltac find_here :=
  first [ apply str_in_here | apply str_in_app_r; find_here ].

(* ================================================================== *)
(** ** Dicts *)

Lemma keys_dict_set {V} (d : list (string * V)) (k : string) (v : V) (x : string) :
  In x (keys (dict_set d k v)) <-> In x (keys d) \/ x = k.
Proof.
  induction d as [|[k' v'] d IH]; simpl.
  - intuition.
  - destruct (String.eqb k' k) eqn:E; simpl.
    + apply String.eqb_eq in E. subst k'. intuition.
    + rewrite IH. intuition.
Qed.

Lemma NoDup_dict_set {V} (d : list (string * V)) (k : string) (v : V) :
  NoDup (keys d) -> NoDup (keys (dict_set d k v)).
Proof.
  induction d as [|[k' v'] d IH]; simpl; intros H.
  - constructor; [intros [] | constructor].
  - inversion H as [|? ? Hnot Hd]; subst.
    destruct (String.eqb k' k) eqn:E; simpl.
    + constructor; assumption.
    + constructor; [|now apply IH].
      intros Hin. apply keys_dict_set in Hin. destruct Hin as [Hin|Hin].
      * now apply Hnot.
      * subst k'. rewrite String.eqb_refl in E. discriminate.
Qed.

Lemma values_dict_set {V} (P : V -> Prop) (d : list (string * V)) (k : string) (v : V) :
  Forall P (values d) -> P v -> Forall P (values (dict_set d k v)).
Proof.
  induction d as [|[k' v'] d IH]; simpl; intros H Hv.
  - constructor; [exact Hv | constructor].
  - inversion H; subst.
    destruct (String.eqb k' k); simpl; constructor; auto.
Qed.

Lemma keys_dict_set_add_key {V} (d : list (string * V)) (k : string) (v : V) :
  keys (dict_set d k v) = add_key (keys d) k.
Proof.
  unfold add_key. induction d as [|[k' v'] d IH]; [reflexivity|].
  simpl. destruct (String.eqb k' k); simpl; [reflexivity|].
  rewrite IH. destruct (existsb (fun k'0 => String.eqb k'0 k) (keys d)); reflexivity.
Qed.

Lemma dict_get_dict_set {V} (d : list (string * V)) (k k' : string) (v : V) :
  dict_get (dict_set d k v) k' = if String.eqb k k' then Some v else dict_get d k'.
Proof.
  induction d as [|[k0 v0] d IH]; simpl.
  - reflexivity.
  - destruct (String.eqb k0 k) eqn:E0; simpl.
    + apply String.eqb_eq in E0. subst k0.
      destruct (String.eqb k k'); reflexivity.
    + destruct (String.eqb k0 k') eqn:E1.
      * apply String.eqb_eq in E1. subst k0.
        rewrite String.eqb_sym, E0. reflexivity.
      * exact IH.
Qed.

Lemma add_key_length (ks : list string) (k : string) :
  length ks <= length (add_key ks k) <= S (length ks).
Proof.
  unfold add_key. destruct (existsb (fun k' => String.eqb k' k) ks).
  - lia.
  - rewrite length_app. simpl. lia.
Qed.

Lemma fold_add_key_length (l : list string) :
  forall ks, length (fold_left add_key l ks) <= length ks + length l.
Proof.
  induction l as [|k l IH]; intros ks; simpl; [lia|].
  specialize (IH (add_key ks k)). pose proof (add_key_length ks k). lia.
Qed.

(* ================================================================== *)
(** ** Running the pieces *)

Lemma random_randint_1_3 (w : world) :
  exists n, in_1_3 n /\ random_randint 1 3 w = (Ok n, advance w).
Proof.
  exists (1 + Z.of_nat (rng w 0 mod 3))%Z. split.
  - assert (B : rng w 0 mod 3 < 3) by (apply Nat.mod_upper_bound; discriminate).
    unfold in_1_3. lia.
  - reflexivity.
Qed.

Lemma random_randint_1_3_value (w : world) :
  random_randint 1 3 w = (Ok (1 + Z.of_nat (rng w 0 mod 3))%Z, advance w).
Proof. reflexivity. Qed.

Lemma equipment_comprehension_run (equipment : list string) :
  forall (d : list (string * Z)) (w : world),
  exists d' w',
    equipment_comprehension equipment d w = (Ok d', w') /\
    same_store w w' /\
    (forall k, In k (keys d') <-> In k (keys d) \/ In k equipment) /\
    (NoDup (keys d) -> NoDup (keys d')) /\
    (Forall in_1_3 (values d) -> Forall in_1_3 (values d')).
Proof.
  induction equipment as [|eq rest IH]; intros d w.
  - exists d, w. simpl. unfold same_store. repeat split; auto; tauto.
  - destruct (random_randint_1_3 w) as (n & Hn & Hr).
    destruct (IH (dict_set d eq n) (advance w)) as (d' & w' & Hrun & Hs & Hk & Hnd & Hv).
    exists d', w'. split; [|split; [|split; [|split]]].
    + simpl. unfold bind at 1. rewrite Hr. exact Hrun.
    + exact Hs.
    + intros k. rewrite Hk, keys_dict_set. simpl. intuition.
    + intros H. apply Hnd. now apply NoDup_dict_set.
    + intros H. apply Hv. now apply values_dict_set.
Qed.

(** The dict comprehension, step by step: the world it leaves, the order
    of the keys, and what a lookup in the result gives. *)
Lemma equipment_comprehension_trace (equipment : list string) :
  forall (d : list (string * Z)) (w : world),
  exists d',
    equipment_comprehension equipment d w =
    (Ok d', mkWorld (incident_log w) (fun i => rng w (length equipment + i))
                    (slept w) (tmp_map_html w) (libs w)) /\
    keys d' = fold_left add_key equipment (keys d) /\
    (Forall in_1_3 (values d) -> Forall in_1_3 (values d')) /\
    (forall k,
       match dict_get d' k with
       | Some v => (In k equipment /\ in_1_3 v) \/ dict_get d k = Some v
       | None => ~ In k equipment /\ dict_get d k = None
       end).
Proof.
  induction equipment as [|eq rest IH]; intros d w.
  - exists d. split; [destruct w; reflexivity|]. split; [reflexivity|].
    split; [auto|]. intros k. destruct (dict_get d k); [right|split]; auto.
  - destruct (random_randint_1_3 w) as (n & Hn & Hr).
    destruct (IH (dict_set d eq n) (advance w)) as (d' & Hrun & Hk & Hv & Hg).
    exists d'. split; [|split; [|split]].
    + simpl equipment_comprehension. unfold bind at 1. rewrite Hr. exact Hrun.
    + rewrite Hk, keys_dict_set_add_key. reflexivity.
    + intros H. apply Hv. now apply values_dict_set.
    + intros k. specialize (Hg k). rewrite dict_get_dict_set in Hg.
      destruct (dict_get d' k) as [v|].
      * destruct Hg as [[Hin Hv']|Hg]; [left; split; [right|]; assumption|].
        destruct (String.eqb eq k) eqn:E.
        -- apply String.eqb_eq in E. injection Hg as <-. left. split; [left|]; assumption.
        -- right. exact Hg.
      * destruct Hg as [Hnin Hg]. destruct (String.eqb eq k) eqn:E; [discriminate|].
        apply String.eqb_neq in E. split; [|exact Hg].
        intros [->|Hin]; [now apply E | now apply Hnin].
Qed.

Lemma equipment_comprehension_last_draw (equipment : list string) :
  forall (d d' : list (string * Z)) (w w' : world) (i : nat) (k : string),
  equipment_comprehension equipment d w = (Ok d', w') ->
  nth_error equipment i = Some k ->
  (forall j, i < j -> nth_error equipment j <> Some k) ->
  dict_get d' k = Some (1 + Z.of_nat (rng w i mod 3))%Z.
Proof.
  induction equipment as [|eq rest IH]; intros d d' w w' i k Hrun Hi Hlast.
  - destruct i; discriminate Hi.
  - simpl equipment_comprehension in Hrun. unfold bind at 1 in Hrun.
    rewrite random_randint_1_3_value in Hrun.
    destruct i as [|i].
    + injection Hi as ->.
      assert (Hnot : ~ In k rest).
      { intros Hin. apply In_nth_error in Hin. destruct Hin as [j Hj].
        apply (Hlast (S j)); [lia | exact Hj]. }
      destruct (equipment_comprehension_trace rest
                  (dict_set d k (1 + Z.of_nat (rng w 0 mod 3))%Z) (advance w))
        as (d2 & Hrun2 & _ & _ & Hg).
      rewrite Hrun in Hrun2. injection Hrun2 as <- _.
      specialize (Hg k). rewrite dict_get_dict_set, String.eqb_refl in Hg.
      destruct (dict_get d' k) as [v|].
      * destruct Hg as [[Hin _]|Hg]; [contradiction | congruence].
      * destruct Hg as [_ Hg]. discriminate Hg.
    + apply (IH _ _ _ _ i k Hrun Hi).
      intros j Hj. apply (Hlast (S j)). lia.
Qed.

(** What the click draws: the counts, with their keys and values. *)
Lemma drawn_counts_run (equipment : list string) (w : world) :
  equipment_comprehension equipment [] (advance w) =
  (Ok (drawn_counts equipment w),
   mkWorld (incident_log w) (fun i => rng w (S (length equipment + i)))
           (slept w) (tmp_map_html w) (libs w)) /\
  keys (drawn_counts equipment w) = distinct_in_order equipment /\
  Forall in_1_3 (values (drawn_counts equipment w)).
Proof.
  destruct (equipment_comprehension_trace equipment [] (advance w))
    as (d & Hrun & Hk & Hv & _).
  unfold drawn_counts. rewrite Hrun. cbn [fst].
  split; [|split; [exact Hk | apply Hv; constructor]].
  reflexivity.
Qed.

Lemma drawn_vehicle_roster (w : world) :
  nth_error (keys vehicles) (rng w 0 mod 3) = Some (drawn_vehicle w) /\
  In (drawn_vehicle w) (keys vehicles) /\
  dict_get vehicles (drawn_vehicle w) = Some (crew_of (drawn_vehicle w)).
Proof.
  assert (B : rng w 0 mod 3 < 3) by (apply Nat.mod_upper_bound; discriminate).
  unfold drawn_vehicle, crew_of.
  destruct (rng w 0 mod 3) as [|[|[|k]]]; [| | | lia]; simpl; tauto.
Qed.

(* ------------------------------------------------------------------ *)
(** *** The map *)

Lemma py_float_raises (v : pyval) (e : exn) :
  py_float v = Raise e -> e = ValueError \/ e = TypeError \/ e = OverflowError.
Proof.
  destruct v as [|[z|f]|s]; simpl.
  - intros H. injection H as <-. auto.
  - unfold float_of_int. destruct (Z.abs z <? float_overflow_bound)%Z;
      intros H; [discriminate|]. injection H as <-. auto.
  - discriminate.
  - unfold float_of_string.
    match goal with
    | |- context [drop_underscores zero ?t] =>
        destruct (drop_underscores zero t) as [l|];
          [destruct (parse_decimal l); [|destruct (parse_inf_or_nan l)]|]
    end;
      intros H; try discriminate; injection H as <-; auto.
Qed.

Lemma map_destination_raises (lat lon : pyval) (e : exn) :
  map_destination lat lon = Raise e ->
  e = ValueError \/ e = TypeError \/ e = OverflowError.
Proof.
  unfold map_destination.
  destruct (py_float lat) as [la|e1] eqn:Hla.
  - destruct (py_float lon) as [lo|e2] eqn:Hlo.
    + unfold validate_location. destruct (is_nan (fst (la, lo)) || is_nan (snd (la, lo)));
        intros H; [|discriminate]. injection H as <-. auto.
    + intros H. injection H as <-. exact (py_float_raises lon _ Hlo).
  - intros H. injection H as <-. exact (py_float_raises lat _ Hla).
Qed.

Lemma map_destination_ok (lat lon : pyval) (la lo : pyfloat) :
  is_coordinate lat la -> is_coordinate lon lo ->
  map_destination lat lon = Ok (la, lo).
Proof.
  intros [Hla Na] [Hlo No]. unfold map_destination, validate_location.
  rewrite Hla, Hlo. simpl. rewrite Na, No. reflexivity.
Qed.

Lemma map_destination_ok_inv (lat lon : pyval) (dest : latlon) :
  map_destination lat lon = Ok dest ->
  is_coordinate lat (fst dest) /\ is_coordinate lon (snd dest).
Proof.
  unfold map_destination, validate_location, is_coordinate.
  destruct (py_float lat) as [la|]; [|discriminate].
  destruct (py_float lon) as [lo|]; [|discriminate].
  cbn [fst snd]. destruct (is_nan la) eqn:Na; [discriminate|].
  destruct (is_nan lo) eqn:No; [discriminate|].
  intros [= <-]. auto.
Qed.

(** [generate_map] in one equation: it reads nothing of the world, raises
    what the destination raises, and otherwise only replaces the file. *)
Lemma generate_map_spec (lat lon : pyval) (w : world) :
  generate_map lat lon w =
  match map_destination lat lon with
  | Ok dest =>
      (Ok "/tmp/map.html",
       mkWorld (incident_log w) (rng w) (slept w) (Some (movement_map dest)) (libs w))
  | Raise e => (Raise e, w)
  end.
Proof.
  unfold generate_map, map_destination, bind, lift.
  destruct (py_float lat) as [la|]; [|reflexivity].
  destruct (py_float lon) as [lo|]; [|reflexivity].
  destruct la, lo; reflexivity.
Qed.

(* ------------------------------------------------------------------ *)
(** *** The charts *)

Lemma bars_xs (xs : list xcoord) :
  forall (hs : list pyval) (color : string),
  length xs = length hs ->
  map bar_x (map (fun xh => mkBar (fst xh) (snd xh) color) (combine xs hs)) = xs.
Proof.
  induction xs as [|x xs IH]; intros [|h hs] color H; simpl in *;
    try discriminate; [reflexivity|].
  f_equal. apply IH. now injection H.
Qed.

Lemma bars_hs (xs : list xcoord) :
  forall (hs : list pyval) (color : string),
  length xs = length hs ->
  map bar_height (map (fun xh => mkBar (fst xh) (snd xh) color) (combine xs hs)) = hs.
Proof.
  induction xs as [|x xs IH]; intros [|h hs] color H; simpl in *;
    try discriminate; [reflexivity|].
  f_equal. apply IH. now injection H.
Qed.

Lemma combine_map_both {A B C D} (f : A -> C) (g : B -> D) (l : list (A * B)) :
  combine (map f (map fst l)) (map g (map snd l))
  = map (fun ab => (f (fst ab), g (snd ab))) l.
Proof. induction l as [|[a b] l IH]; simpl; [reflexivity | now rewrite IH]. Qed.

Lemma combine_map_l {A B C} (f : A -> C) (xs : list A) :
  forall hs : list B,
  combine (map f xs) hs = map (fun ab => (f (fst ab), snd ab)) (combine xs hs).
Proof.
  induction xs as [|x xs IH]; intros [|h hs]; simpl; try reflexivity.
  now rewrite IH.
Qed.

Lemma generate_equipment_chart_spec (counts : list (string * Z)) (w : world) :
  generate_equipment_chart counts w = (savefig (libs w) (equipment_figure counts), w).
Proof.
  unfold generate_equipment_chart, fig_savefig, equipment_figure.
  cbv [texts bars subplots ax_bar set_title set_ylabel xticks plt_tight_layout
       figsize axes_on title xlabel ylabel xticks_rotation tight_layout app
       keys values].
  rewrite combine_map_both, map_map. reflexivity.
Qed.

Lemma frame_column_length (lib : library) (col : list pyval) :
  length (frame_column lib col) = length col.
Proof.
  unfold frame_column.
  destruct (forallb plain_number col); [destruct (forallb is_int col)|];
    rewrite ?length_map; reflexivity.
Qed.

Lemma generate_water_chart_spec (log : list incident_record) (w : world) :
  generate_water_chart log w =
  (match DataFrame (libs w) log with
   | Ok df => savefig (libs w) (water_figure df)
   | Raise e => Raise e
   end, w).
Proof.
  unfold generate_water_chart, bind, pd_DataFrame, DataFrame.
  destruct (frame_error (libs w) log) as [e|]; [reflexivity|].
  unfold water_figure, df_empty. cbn [df_rows df_water].
  destruct log as [|r log]; [reflexivity|].
  unfold fig_savefig, bars_figure, df_index.
  cbv [texts bars subplots ax_bar set_title set_ylabel set_xlabel plt_tight_layout
       figsize axes_on title xlabel ylabel xticks_rotation tight_layout app df_rows
       df_water].
  rewrite combine_map_l, map_map, frame_column_length, length_map. reflexivity.
Qed.

Lemma bars_figure_bars (heights : list pyval) :
  map bar_x (bars (bars_figure heights)) = map XIndex (seq 0 (length heights)) /\
  map bar_height (bars (bars_figure heights)) = heights /\
  length (bars (bars_figure heights)) = length heights /\
  Forall (fun b => bar_color b = "blue") (bars (bars_figure heights)).
Proof.
  unfold bars_figure. cbn [bars].
  assert (G : forall (n : nat) (hs : list pyval),
            map bar_x (map (fun ih => mkBar (XIndex (fst ih)) (snd ih) "blue")
                           (combine (seq n (length hs)) hs))
            = map XIndex (seq n (length hs)) /\
            map bar_height (map (fun ih => mkBar (XIndex (fst ih)) (snd ih) "blue")
                                (combine (seq n (length hs)) hs)) = hs).
  { intros n hs. revert n. induction hs as [|h hs IH]; intros n; simpl; [auto|].
    destruct (IH (S n)) as [H1 H2]. rewrite H1, H2. auto. }
  destruct (G 0 heights) as [H1 H2]. split_all.
  - exact H1.
  - exact H2.
  - rewrite <- (length_map bar_height), H2. reflexivity.
  - apply Forall_forall. intros b Hb. apply in_map_iff in Hb.
    destruct Hb as (ih & <- & _). reflexivity.
Qed.

(* ------------------------------------------------------------------ *)
(** *** One click *)

Lemma equipment_comprehension_source (equipment : list string) :
  forall (d : list (string * Z)) (w w' : world),
  (forall i, rng w i = rng w' i) ->
  fst (equipment_comprehension equipment d w)
  = fst (equipment_comprehension equipment d w').
Proof.
  induction equipment as [|eq rest IH]; intros d w w' H; [reflexivity|].
  simpl equipment_comprehension. unfold bind.
  rewrite !random_randint_1_3_value, (H 0).
  apply IH. intros i. exact (H (S i)).
Qed.

(** The handler in one equation: what can end it, in the order of the
    source, and the world it leaves in each case. *)
Lemma run_call_outline (c : call) (w : world) :
  run_call c w =
  match format_location (c_latitude c) (c_longitude c) with
  | Raise e => (Raise e, after_draws w c (incident_log w) 2 (tmp_map_html w))
  | Ok location =>
      let log := (incident_log w ++ [record_of c location w])%list in
      match DataFrame (libs w) log with
      | Raise e => (Raise e, after_draws w c log 2 (tmp_map_html w))
      | Ok df =>
          match savefig (libs w) (equipment_figure (drawn_counts (c_equipment c) w)) with
          | Raise e => (Raise e, after_draws w c log 3 (tmp_map_html w))
          | Ok eq_chart =>
              match savefig (libs w) (water_figure df) with
              | Raise e => (Raise e, after_draws w c log 3 (tmp_map_html w))
              | Ok water_chart =>
                  match format_report (c_incident_type c) (c_severity c) (c_latitude c)
                          (c_longitude c) (drawn_vehicle w)
                          (join ", " (crew_of (drawn_vehicle w)))
                          (fst (ai_route (c_severity c))) (snd (ai_route (c_severity c)))
                          (c_equipment c) (c_water_used c) timeline with
                  | Raise e => (Raise e, after_draws w c log 3 (tmp_map_html w))
                  | Ok report =>
                      match map_destination (c_latitude c) (c_longitude c) with
                      | Raise e => (Raise e, after_draws w c log 3 (tmp_map_html w))
                      | Ok dest =>
                          (Ok (report, df, eq_chart, water_chart, "/tmp/map.html"),
                           after_draws w c log 3 (Some (movement_map dest)))
                      end
                  end
              end
          end
      end
  end.
Proof.
  destruct c as [it sev lat lon eq water].
  cbn [c_incident_type c_severity c_latitude c_longitude c_equipment c_water_used].
  unfold run_call, after_draws, record_of.
  cbn [c_incident_type c_severity c_latitude c_longitude c_equipment c_water_used].
  destruct (drawn_vehicle_roster w) as (Hnth & _ & Hget).
  set (w0 := mkWorld (incident_log w) (rng w) (slept w + 1) (tmp_map_html w) (libs w)).
  assert (Hrc : random_choice (keys vehicles) w0 = (Ok (drawn_vehicle w), advance w0)).
  { cbv [random_choice keys vehicles map fst length bind randbelow].
    change (rng w0 0) with (rng w 0).
    cbv [keys vehicles map fst] in Hnth. rewrite Hnth. reflexivity. }
  assert (Hec : equipment_comprehension eq [] (advance w0) =
                (Ok (drawn_counts eq w),
                 mkWorld (incident_log w) (fun i => rng w (S (length eq + i)))
                         (slept w + 1) (tmp_map_html w) (libs w))).
  { destruct (equipment_comprehension_trace eq [] (advance w0)) as (d & Hrun & _).
    rewrite Hrun. f_equal. f_equal.
    pose proof (equipment_comprehension_source eq [] (advance w0) (advance w)
                  (fun i => eq_refl)) as Hs.
    rewrite Hrun in Hs. unfold drawn_counts. rewrite <- Hs. reflexivity. }
  cbv [dispatch_incident bind time_sleep]. fold w0.
  rewrite Hrc. unfold getitem. rewrite Hget. cbv [ret].
  destruct (ai_route sev) as [route eta]. cbn [fst snd].
  rewrite Hec. cbv [lift log_append read_log pd_DataFrame].
  cbn [incident_log rng slept tmp_map_html libs].
  replace (slept w + 1 + 1) with (slept w + 2) by lia.
  destruct (format_location lat lon) as [location|e]; [|reflexivity].
  cbv zeta.
  set (r := mkRecord _ _ _ _ _ _ _ _ _).
  destruct (DataFrame (libs w) (incident_log w ++ [r])) as [df|e] eqn:Hdf;
    [|reflexivity].
  rewrite generate_equipment_chart_spec. cbn [libs fst snd].
  replace (slept w + 2 + 1) with (slept w + 3) by lia.
  destruct (savefig (libs w) (equipment_figure (drawn_counts eq w))) as [eq_chart|e];
    [|reflexivity].
  cbn [incident_log]. rewrite generate_water_chart_spec. cbn [libs fst snd].
  rewrite Hdf.
  destruct (savefig (libs w) (water_figure df)) as [water_chart|e]; [|reflexivity].
  fold timeline.
  destruct (format_report it sev lat lon (drawn_vehicle w)
              (join ", " (crew_of (drawn_vehicle w))) route eta eq water timeline)
    as [report|e]; [|reflexivity].
  rewrite generate_map_spec.
  destruct (map_destination lat lon) as [dest|e]; reflexivity.
Qed.

Lemma str_of_int_eta (severity : pyval) :
  str_of_int (snd (ai_route severity)) = Ok (decimal_of_int (snd (ai_route severity))).
Proof.
  unfold ai_route.
  destruct (py_eq_str severity "High"); [vm_compute; reflexivity|].
  destruct (py_eq_str severity "Medium"); vm_compute; reflexivity.
Qed.

(** The report is printed exactly when its five values are, and then it
    is the template filled with them. *)
Lemma format_report_spec (c : call) (vehicle officers stage_msg : string) :
  format_report (c_incident_type c) (c_severity c) (c_latitude c) (c_longitude c)
    vehicle officers (fst (ai_route (c_severity c))) (snd (ai_route (c_severity c)))
    (c_equipment c) (c_water_used c) stage_msg
  = match py_str (c_incident_type c), py_str (c_latitude c), py_str (c_longitude c),
          py_str (c_severity c), py_str (c_water_used c) with
    | Ok s_incident, Ok s_latitude, Ok s_longitude, Ok s_severity, Ok s_water =>
        Ok (report_text s_incident s_latitude s_longitude s_severity vehicle officers
              (fst (ai_route (c_severity c)))
              (decimal_of_int (snd (ai_route (c_severity c))))
              (join ", " (c_equipment c)) s_water stage_msg)
    | _, _, _, _, _ => Raise ValueError
    end.
Proof.
  assert (V : forall v e, py_str v = Raise e -> e = ValueError).
  { intros [|[z|f]|s] e; simpl; try discriminate.
    unfold str_of_int. destruct (Z.abs z <? 10 ^ max_str_digits)%Z;
      [discriminate | now intros [= <-]]. }
  unfold format_report, result_bind. rewrite str_of_int_eta.
  destruct (py_str (c_incident_type c)) as [?|e1] eqn:E1;
    [|rewrite (V _ _ E1); reflexivity].
  destruct (py_str (c_latitude c)) as [?|e2] eqn:E2;
    [|rewrite (V _ _ E2); reflexivity].
  destruct (py_str (c_longitude c)) as [?|e3] eqn:E3;
    [|rewrite (V _ _ E3); reflexivity].
  destruct (py_str (c_severity c)) as [?|e4] eqn:E4;
    [|rewrite (V _ _ E4); reflexivity].
  destruct (py_str (c_water_used c)) as [?|e5] eqn:E5;
    [|rewrite (V _ _ E5)]; reflexivity.
Qed.

Lemma format_report_ok (c : call) (vehicle officers stage_msg : string) :
  is_ok (format_report (c_incident_type c) (c_severity c) (c_latitude c)
           (c_longitude c) vehicle officers (fst (ai_route (c_severity c)))
           (snd (ai_route (c_severity c))) (c_equipment c) (c_water_used c) stage_msg)
  = values_print c.
Proof.
  rewrite format_report_spec. unfold values_print.
  destruct (py_str (c_incident_type c)), (py_str (c_latitude c)),
    (py_str (c_longitude c)), (py_str (c_severity c)), (py_str (c_water_used c));
    reflexivity.
Qed.

Lemma stores_of_values_print (c : call) : values_print c = true -> stores c = true.
Proof.
  unfold values_print, stores, format_location, result_bind.
  destruct (py_str (c_incident_type c)), (py_str (c_latitude c)),
    (py_str (c_longitude c)); simpl; try discriminate; reflexivity.
Qed.

Lemma format_location_raises (lat lon : pyval) (e : exn) :
  format_location lat lon = Raise e -> e = ValueError.
Proof.
  assert (V : forall v e, py_str v = Raise e -> e = ValueError).
  { intros [|[z|f]|s] e'; simpl; try discriminate.
    unfold str_of_int. destruct (Z.abs z <? 10 ^ max_str_digits)%Z;
      [discriminate | now intros [= <-]]. }
  unfold format_location, result_bind.
  destruct (py_str lat) eqn:E1; [|intros [= <-]; exact (V _ _ E1)].
  destruct (py_str lon) eqn:E2; [discriminate | intros [= <-]; exact (V _ _ E2)].
Qed.

(** A text always prints, so does [None], so does a [float]. *)
Lemma format_location_text (s t : string) :
  format_location (VStr s) (VStr t) = Ok (s ++ ", " ++ t).
Proof. reflexivity. Qed.

(** A call run is the handler applied to the six values of the call. *)
Lemma run_call_dispatch (incident_type severity latitude longitude : pyval)
    (equipment : list string) (water_used_liters : pyval) :
  run_call (mkCall incident_type severity latitude longitude equipment
                   water_used_liters)
  = dispatch_incident incident_type severity latitude longitude equipment
                      water_used_liters.
Proof. reflexivity. Qed.

(** What a click does to each part of the world. *)
Lemma click_log (w : world) (c : call) :
  incident_log (click w c) = history_after w c.
Proof.
  unfold click, history_after, stored. rewrite run_call_outline.
  destruct (format_location (c_latitude c) (c_longitude c)) as [location|e].
  - cbv zeta.
    destruct (DataFrame _ _); [|reflexivity].
    destruct (savefig _ (equipment_figure _)); [|reflexivity].
    destruct (savefig _ (water_figure _)); [|reflexivity].
    destruct (format_report _ _ _ _ _ _ _ _ _ _ _); [|reflexivity].
    destruct (map_destination _ _); reflexivity.
  - cbn [snd after_draws incident_log]. rewrite app_nil_r. reflexivity.
Qed.

Lemma click_rng (w : world) (c : call) (i : nat) :
  rng (click w c) i = rng w (draws_of c + i).
Proof.
  unfold click, draws_of. rewrite run_call_outline.
  destruct (format_location (c_latitude c) (c_longitude c)) as [location|e];
    [|reflexivity].
  cbv zeta.
  destruct (DataFrame _ _); [|reflexivity].
  destruct (savefig _ (equipment_figure _)); [|reflexivity].
  destruct (savefig _ (water_figure _)); [|reflexivity].
  destruct (format_report _ _ _ _ _ _ _ _ _ _ _); [|reflexivity].
  destruct (map_destination _ _); reflexivity.
Qed.

Lemma click_libs (w : world) (c : call) : libs (click w c) = libs w.
Proof.
  unfold click. rewrite run_call_outline.
  destruct (format_location (c_latitude c) (c_longitude c)) as [location|e];
    [|reflexivity].
  cbv zeta.
  destruct (DataFrame _ _); [|reflexivity].
  destruct (savefig _ (equipment_figure _)); [|reflexivity].
  destruct (savefig _ (water_figure _)); [|reflexivity].
  destruct (format_report _ _ _ _ _ _ _ _ _ _ _); [|reflexivity].
  destruct (map_destination _ _); reflexivity.
Qed.

Lemma click_slept (w : world) (c : call) :
  slept (click w c) = slept w + (if reaches_resolved w c then 3 else 2).
Proof.
  unfold click, reaches_resolved, stores, history_after, stored.
  rewrite run_call_outline.
  destruct (format_location (c_latitude c) (c_longitude c)) as [location|e];
    [|reflexivity].
  cbv zeta. cbn [is_ok andb].
  destruct (DataFrame _ _); [|reflexivity].
  destruct (savefig _ (equipment_figure _)); [|reflexivity].
  destruct (savefig _ (water_figure _)); [|reflexivity].
  destruct (format_report _ _ _ _ _ _ _ _ _ _ _); [|reflexivity].
  destruct (map_destination _ _); reflexivity.
Qed.

(** The file of the map is replaced exactly when the handler returns. *)
Lemma click_file (w : world) (c : call) :
  tmp_map_html (click w c) =
  match fst (run_call c w), map_destination (c_latitude c) (c_longitude c) with
  | Ok _, Ok dest => Some (movement_map dest)
  | _, _ => tmp_map_html w
  end.
Proof.
  unfold click. rewrite run_call_outline.
  destruct (format_location (c_latitude c) (c_longitude c)) as [location|e];
    [|reflexivity].
  cbv zeta.
  destruct (DataFrame _ _); [|reflexivity].
  destruct (savefig _ (equipment_figure _)); [|reflexivity].
  destruct (savefig _ (water_figure _)); [|reflexivity].
  destruct (format_report _ _ _ _ _ _ _ _ _ _ _); [|reflexivity].
  destruct (map_destination _ _); reflexivity.
Qed.

(** The handler returns exactly when the values print, the libraries
    accept the history and the charts, and the map accepts the
    coordinates. *)
Lemma run_call_ok (c : call) (w : world) :
  is_ok (fst (run_call c w)) =
  values_print c && libraries_accept w c
  && is_ok (map_destination (c_latitude c) (c_longitude c)).
Proof.
  rewrite run_call_outline. unfold libraries_accept, history_after, stored.
  pose proof (stores_of_values_print c) as Hs. unfold stores in Hs.
  destruct (format_location (c_latitude c) (c_longitude c)) as [location|e].
  - cbv zeta.
    destruct (DataFrame _ _) as [df|];
      [|cbn [fst is_ok]; rewrite andb_false_r; reflexivity].
    destruct (savefig _ (equipment_figure _));
      [|cbn [fst is_ok andb]; rewrite andb_false_r; reflexivity].
    destruct (savefig _ (water_figure _));
      [|cbn [fst is_ok andb]; rewrite andb_false_r; reflexivity].
    rewrite <- (format_report_ok c (drawn_vehicle w)
                  (join ", " (crew_of (drawn_vehicle w))) timeline).
    destruct (format_report _ _ _ _ _ _ _ _ _ _ _); [|reflexivity].
    destruct (map_destination _ _); reflexivity.
  - cbn [fst is_ok]. destruct (values_print c); [|reflexivity].
    discriminate (Hs eq_refl).
Qed.

(** What the handler has done when it returns. *)
Lemma run_call_returns (c : call) (w : world)
    (report : string) (df : dataframe) (eq_chart water_chart : image) (map_path : string) :
  fst (run_call c w) = Ok (report, df, eq_chart, water_chart, map_path) ->
  exists (location : string) (dest : latlon),
    format_location (c_latitude c) (c_longitude c) = Ok location /\
    DataFrame (libs w) (incident_log w ++ [record_of c location w]) = Ok df /\
    savefig (libs w) (equipment_figure (drawn_counts (c_equipment c) w)) = Ok eq_chart /\
    savefig (libs w) (water_figure df) = Ok water_chart /\
    format_report (c_incident_type c) (c_severity c) (c_latitude c) (c_longitude c)
      (drawn_vehicle w) (join ", " (crew_of (drawn_vehicle w)))
      (fst (ai_route (c_severity c))) (snd (ai_route (c_severity c)))
      (c_equipment c) (c_water_used c) timeline = Ok report /\
    map_destination (c_latitude c) (c_longitude c) = Ok dest /\
    map_path = "/tmp/map.html" /\
    click w c =
    after_draws w c (incident_log w ++ [record_of c location w]) 3
                (Some (movement_map dest)).
Proof.
  unfold click. rewrite run_call_outline.
  destruct (format_location (c_latitude c) (c_longitude c)) as [location|e];
    [|discriminate].
  cbv zeta.
  destruct (DataFrame _ _) as [df'|] eqn:Hdf; [|discriminate].
  destruct (savefig _ (equipment_figure _)) as [eqc|] eqn:Heq; [|discriminate].
  destruct (savefig _ (water_figure _)) as [wc|] eqn:Hwc; [|discriminate].
  destruct (format_report _ _ _ _ _ _ _ _ _ _ _) as [rep|] eqn:Hrep; [|discriminate].
  destruct (map_destination _ _) as [dest|] eqn:Hd; [|discriminate].
  cbn [fst snd]. intros H. injection H as -> -> -> -> <-.
  exists location, dest. split_all; try reflexivity; assumption.
Qed.

(** What ends the handler when it raises: nothing but the printing of an
    [int] that is too long, the libraries, or the map. *)
Lemma run_call_raises (c : call) (w : world) (e : exn) :
  fst (run_call c w) = Raise e ->
  (values_print c = false /\ e = ValueError) \/
  libraries_accept w c = false \/
  map_destination (c_latitude c) (c_longitude c) = Raise e.
Proof.
  rewrite run_call_outline. unfold libraries_accept, history_after, stored.
  destruct (format_location (c_latitude c) (c_longitude c)) as [location|e0] eqn:Hl.
  - cbv zeta.
    destruct (DataFrame _ _) as [df|]; [|auto].
    destruct (savefig _ (equipment_figure _)); [|auto].
    destruct (savefig _ (water_figure _)); [|auto].
    pose proof (format_report_ok c (drawn_vehicle w)
                  (join ", " (crew_of (drawn_vehicle w))) timeline) as Hp.
    pose proof (format_report_spec c (drawn_vehicle w)
                  (join ", " (crew_of (drawn_vehicle w))) timeline) as Hq.
    destruct (format_report _ _ _ _ _ _ _ _ _ _ _) as [rep|e1].
    + destruct (map_destination _ _); [discriminate|]. cbn [fst].
      intros [= ->]. right. right. reflexivity.
    + cbn [fst]. intros [= ->]. left. split; [symmetry; exact Hp|].
      destruct (py_str (c_incident_type c)), (py_str (c_latitude c)),
        (py_str (c_longitude c)), (py_str (c_severity c)), (py_str (c_water_used c));
        congruence.
  - cbn [fst]. intros [= ->]. left. split.
    + pose proof (stores_of_values_print c) as Hs. unfold stores in Hs.
      rewrite Hl in Hs. destruct (values_print c); [discriminate (Hs eq_refl)|reflexivity].
    + exact (format_location_raises _ _ _ Hl).
Qed.

Lemma session_cons (c : call) (calls : list call) (w : world) :
  session (c :: calls) w = session calls (click w c).
Proof. reflexivity. Qed.

Lemma session_libs (calls : list call) :
  forall w, libs (session calls w) = libs w.
Proof.
  induction calls as [|c calls IH]; intros w; [reflexivity|].
  rewrite session_cons, IH. apply click_libs.
Qed.

Lemma stored_spec (w : world) (c : call) :
  (stores c = false /\ stored w c = []) \/
  (exists r, stores c = true /\ stored w c = [r] /\ stored_for c r /\
             In (Vehicle r) (keys vehicles) /\ record_consistent r = true /\
             Vehicle r = drawn_vehicle w).
Proof.
  unfold stores, stored.
  destruct (format_location (c_latitude c) (c_longitude c)) as [location|e] eqn:Hl.
  - right. exists (record_of c location w).
    destruct (drawn_vehicle_roster w) as (_ & Hin & Hget).
    split_all; try reflexivity.
    + unfold stored_for. cbn [record_of Incident Location Severity Equipment_Used
                              Water_Used_L]. auto.
    + exact Hin.
    + unfold record_consistent. cbn [record_of Vehicle Officers Route ETA_min Severity].
      rewrite Hget, !String.eqb_refl, Z.eqb_refl. reflexivity.
  - left. auto.
Qed.

(** The history after a session: the records of the calls that store
    one, in the order of the calls. *)
Lemma session_log (calls : list call) :
  forall w : world,
  exists new : list incident_record,
    incident_log (session calls w) = (incident_log w ++ new)%list /\
    Forall2 stored_for (filter stores calls) new /\
    Forall (fun r => In (Vehicle r) (keys vehicles)) new /\
    forallb record_consistent new = true.
Proof.
  induction calls as [|c calls IH]; intros w.
  - exists []. simpl. rewrite app_nil_r. auto.
  - destruct (IH (click w c)) as (new & Hnew & Hfor & Hall & Hcons).
    rewrite session_cons, Hnew, click_log. unfold history_after.
    destruct (stored_spec w c) as [[Hs ->]|(r & Hs & -> & Hr & Hv & Hc & _)].
    + exists new. rewrite app_nil_r. simpl. rewrite Hs. auto.
    + exists (r :: new). rewrite <- app_assoc. simpl. rewrite Hs, Hc.
      split_all; auto.
Qed.

(* ------------------------------------------------------------------ *)
(** *** Blanks around a number *)

Lemma chars_app (a b : string) : chars (a ++ b) = (chars a ++ chars b)%list.
Proof. induction a as [|c a IH]; simpl; [reflexivity | now rewrite IH]. Qed.

Lemma chars_blanks (n : nat) : chars (blanks n) = repeat " "%char n.
Proof. apply list_ascii_of_string_of_list_ascii. Qed.

Lemma lstrip_blanks (n : nat) (l : list ascii) :
  lstrip (repeat " "%char n ++ l)%list = lstrip l.
Proof. induction n as [|n IH]; [reflexivity | exact IH]. Qed.

Lemma lstrip_app_blanks (l : list ascii) (m : nat) :
  lstrip (l ++ repeat " "%char m)%list =
  match lstrip l with
  | [] => []
  | _ :: _ => (lstrip l ++ repeat " "%char m)%list
  end.
Proof.
  induction l as [|c l IH]; simpl.
  - rewrite <- (app_nil_r (repeat " "%char m)). apply (lstrip_blanks m []).
  - destruct (is_space c); [exact IH | reflexivity].
Qed.

Lemma rev_blanks (m : nat) : rev (repeat " "%char m) = repeat " "%char m.
Proof.
  induction m as [|m IH]; [reflexivity|].
  simpl. rewrite IH. symmetry. apply repeat_cons.
Qed.

Lemma strip_blanks (n m : nat) (l : list ascii) :
  strip (repeat " "%char n ++ l ++ repeat " "%char m)%list = strip l.
Proof.
  unfold strip. rewrite lstrip_blanks, lstrip_app_blanks.
  destruct (lstrip l) as [|c l']; [reflexivity|].
  rewrite rev_app_distr, rev_blanks, lstrip_blanks. reflexivity.
Qed.

Lemma ascii_blanks (n : nat) : forallb is_ascii_byte (repeat " "%char n) = true.
Proof. induction n as [|n IH]; [reflexivity | exact IH]. Qed.

Lemma utf8_run_blanks (n : nat) (l : list ascii) :
  utf8_run (0, 0%N) (repeat " "%char n ++ l)
  = (repeat 32%N n ++ utf8_run (0, 0%N) l)%list.
Proof.
  induction n as [|n IH]; [reflexivity|].
  cbn [repeat app]. change (utf8_run (0, 0%N) (" "%char :: (repeat " "%char n ++ l)))
    with (32%N :: utf8_run (0, 0%N) (repeat " "%char n ++ l)).
  rewrite IH. reflexivity.
Qed.

Lemma utf8_run_app_blanks (m : nat) (l : list ascii) :
  forall st : nat * N,
  utf8_run st (l ++ repeat " "%char m) = (utf8_run st l ++ repeat 32%N m)%list.
Proof.
  induction l as [|b l IH]; intros [k acc].
  - cbn [app utf8_run fst]. destruct m as [|m].
    + destruct k; reflexivity.
    + pose proof (utf8_run_blanks m []) as H. rewrite !app_nil_r in H.
      destruct k as [|k];
        cbn [repeat utf8_run]; unfold utf8_step; simpl utf8_lead;
        cbn [is_cont N_of_ascii]; simpl; rewrite H; reflexivity.
  - cbn [app utf8_run]. destruct (utf8_step (k, acc) b) as [st' out].
    rewrite IH, app_assoc. reflexivity.
Qed.

Lemma to_ascii_blanks (n : nat) (cps : list N) :
  decimal_and_space_to_ascii (repeat 32%N n ++ cps)
  = (repeat " "%char n ++ decimal_and_space_to_ascii cps)%list.
Proof. induction n as [|n IH]; [reflexivity|]. simpl. rewrite IH. reflexivity. Qed.

Lemma to_ascii_app_blanks (m : nat) (cps : list N) :
  exists m',
    decimal_and_space_to_ascii (cps ++ repeat 32%N m)
    = (decimal_and_space_to_ascii cps ++ repeat " "%char m')%list.
Proof.
  induction cps as [|c cps [m' IH]].
  - exists m. pose proof (to_ascii_blanks m []) as H.
    cbn [decimal_and_space_to_ascii] in H. rewrite !app_nil_r in H. exact H.
  - cbn [app decimal_and_space_to_ascii].
    destruct (c <? 127)%N; [exists m'; rewrite IH; reflexivity|].
    destruct (unicode_isspace c); [exists m'; rewrite IH; reflexivity|].
    destruct (unicode_decimal c); [exists m'; rewrite IH; reflexivity|].
    exists 0. reflexivity.
Qed.

Lemma py_float_blanks (n m : nat) (s : string) :
  py_float (VStr (blanks n ++ s ++ blanks m)) = py_float (VStr s).
Proof.
  unfold py_float, float_of_string.
  rewrite !chars_app, !chars_blanks, !forallb_app, !ascii_blanks, andb_true_r.
  cbn [andb].
  destruct (forallb is_ascii_byte (chars s)).
  - rewrite strip_blanks. reflexivity.
  - unfold utf8_decode.
    rewrite utf8_run_blanks, utf8_run_app_blanks, to_ascii_blanks.
    destruct (to_ascii_app_blanks m (utf8_run (0, 0%N) (chars s))) as [m' ->].
    rewrite strip_blanks. reflexivity.
Qed.

Lemma py_float_only_blanks (n : nat) : py_float (VStr (blanks n)) = Raise ValueError.
Proof.
  replace (blanks n) with (blanks n ++ "" ++ blanks 0).
  - rewrite py_float_blanks. reflexivity.
  - simpl. generalize (blanks n). intros s.
    induction s as [|c s IH]; simpl; [reflexivity | now rewrite IH].
Qed.

(* ================================================================== *)
(** ** The claims *)

(** C1, as the claim words it: the same request does not always return a
    report.  After a request whose water was the int [2^63], whose record
    stays in the history, the chart of the whole history cannot be drawn,
    and the request of the scenario ends with [OverflowError]; its record
    is stored all the same. *)
Lemma building_fire_can_fail :
  fst (run_call building_fire
         (click (start observed_library (fun _ => 0))
                (mkCall (VStr "Building Fire") (VStr "High") (VStr "12.9756")
                        (VStr "77.5950") ["🧯 Fire Extinguisher"]
                        (VNum (NInt (2 ^ 63))))))
  = Raise OverflowError /\
  length (incident_log
            (click (click (start observed_library (fun _ => 0))
                          (mkCall (VStr "Building Fire") (VStr "High") (VStr "12.9756")
                                  (VStr "77.5950") ["🧯 Fire Extinguisher"]
                                  (VNum (NInt (2 ^ 63)))))
                   building_fire)) = 2.
Proof. vm_compute. split; reflexivity. Qed.

(** C1, amended. Dispatching "Building Fire", severity "High", at 12.9756,
    77.5950 with one fire extinguisher and 500 litres appends, in every
    world, exactly one record, whose vehicle is a key of the roster and
    whose water field is 500.  The call returns exactly when pandas and
    matplotlib accept the history and the two charts, and every report it
    returns contains "Emergency Green Corridor" and "12 minutes". *)
Theorem building_fire_dispatch (w : world) :
  (exists r,
     incident_log (click w building_fire) = (incident_log w ++ [r])%list /\
     In (Vehicle r) (keys vehicles) /\
     Water_Used_L r = VNum (NInt 500)) /\
  is_ok (fst (run_call building_fire w)) = libraries_accept w building_fire /\
  (forall report df eq_chart water_chart map_path,
     fst (run_call building_fire w)
     = Ok (report, df, eq_chart, water_chart, map_path) ->
     str_in "Emergency Green Corridor" report = true /\
     str_in "12 minutes" report = true).
Proof.
  destruct (drawn_vehicle_roster w) as (_ & Hin & _).
  split; [|split].
  - rewrite click_log. unfold history_after, stored.
    replace (format_location (c_latitude building_fire) (c_longitude building_fire))
      with (@Ok string "12.9756, 77.595") by (vm_compute; reflexivity).
    eexists. split; [reflexivity|]. split; [exact Hin | reflexivity].
  - rewrite run_call_ok.
    replace (values_print building_fire) with true by (vm_compute; reflexivity).
    replace (is_ok (map_destination (c_latitude building_fire)
                      (c_longitude building_fire)))
      with true by (vm_compute; reflexivity).
    rewrite andb_true_r. reflexivity.
  - intros report df eq_chart water_chart map_path Hret.
    destruct (run_call_returns _ _ _ _ _ _ _ Hret)
      as (location & dest & _ & _ & _ & _ & Hrep & _).
    rewrite format_report_spec in Hrep.
    replace (py_str (c_latitude building_fire)) with (@Ok string "12.9756")
      in Hrep by (vm_compute; reflexivity).
    replace (py_str (c_longitude building_fire)) with (@Ok string "77.595")
      in Hrep by (vm_compute; reflexivity).
    cbn [building_fire c_incident_type c_severity c_water_used c_equipment py_str
         str_of_number] in Hrep.
    replace (str_of_int 500) with (@Ok string "500") in Hrep by (vm_compute; reflexivity).
    injection Hrep as <-.
    unfold drawn_vehicle in *. cbv [keys vehicles map fst] in Hin |- *.
    assert (B : rng w 0 mod 3 < 3) by (apply Nat.mod_upper_bound; discriminate).
    destruct (rng w 0 mod 3) as [|[|[|k]]]; [| | | lia];
      split; vm_compute; reflexivity.
Qed.

(** C2, as the claim words it: the labels it documents lack the road sign
    the code puts in front of them, so the pair for "High" is not the
    documented one. *)
Lemma ai_route_high_is_not_the_bare_label :
  ai_route (VStr "High") <> ("Emergency Green Corridor", 12%Z).
Proof. vm_compute. discriminate. Qed.

(** C2, amended. [ai_route] is a function of the severity alone (it takes
    no world), and on the three severities of the form it returns the
    documented label behind the prefix "🛣 " with the documented minutes. *)
Theorem ai_route_table :
  ai_route (VStr "High") = ("🛣 " ++ "Emergency Green Corridor", 12%Z) /\
  ai_route (VStr "Medium") = ("🛣 " ++ "Traffic-Aware City Route", 18%Z) /\
  ai_route (VStr "Low") = ("🛣 " ++ "Normal Shortest Route", 25%Z).
Proof. repeat split. Qed.

(** C3, as the claim words it: a coordinate can pass [float] and still
    fail the map.  The text "nan" is converted, to NaN, and folium refuses
    it: [generate_map] raises [ValueError] and writes nothing. *)
Lemma generate_map_refuses_nan :
  py_float (VStr "nan") = Ok FNan /\
  generate_map (VStr "nan") (VStr "77.59") (start observed_library (fun _ => 0))
  = (Raise ValueError, start observed_library (fun _ => 0)).
Proof. split; reflexivity. Qed.

(** C3, amended. For every latitude and longitude that [float] turns into
    numbers other than NaN, "12.97" and "77.59" among them, [generate_map]
    succeeds and writes a map with exactly two markers, the station's at
    the fixed coordinate and the incident's at the coordinate read, and
    exactly one path, of the two points.  When [float] refuses the
    latitude, or else the longitude, as it refuses "abc", [generate_map]
    raises what [float] raised, a [ValueError], a [TypeError] or an
    [OverflowError]; when one of the two is NaN it raises [ValueError].  In
    both cases the world, the map file included, stays as it was. *)
Theorem generate_map_markers_and_failure (lat lon : pyval) (w : world) :
  (forall la lo,
     is_coordinate lat la -> is_coordinate lon lo ->
     exists m w',
       generate_map lat lon w = (Ok "/tmp/map.html", w') /\
       tmp_map_html w' = Some m /\
       markers m =
         [ Marker station "Fire Station" "green";
           Marker (la, lo) "Incident Location" "red" ] /\
       paths m = [ AntPath [station; (la, lo)] "red" 5 ]) /\
  (forall e,
     py_float lat = Raise e \/ (is_ok (py_float lat) = true /\ py_float lon = Raise e) ->
     generate_map lat lon w = (Raise e, w) /\
     (e = ValueError \/ e = TypeError \/ e = OverflowError)) /\
  (forall la lo,
     py_float lat = Ok la -> py_float lon = Ok lo -> is_nan la || is_nan lo = true ->
     generate_map lat lon w = (Raise ValueError, w)) /\
  is_coordinate (VStr "12.97") (FDec false 1297 (-2)) /\
  is_coordinate (VStr "77.59") (FDec false 7759 (-2)) /\
  py_float (VStr "abc") = Raise ValueError.
Proof.
  split; [|split; [|split]].
  - intros la lo Hla Hlo. exists (movement_map (la, lo)). eexists.
    rewrite generate_map_spec, (map_destination_ok _ _ _ _ Hla Hlo).
    repeat split.
  - intros e H. rewrite generate_map_spec. unfold map_destination.
    destruct H as [H|[Hok H]].
    + rewrite H. split; [reflexivity | exact (py_float_raises _ _ H)].
    + destruct (py_float lat); [|discriminate Hok]. rewrite H.
      split; [reflexivity | exact (py_float_raises _ _ H)].
  - intros la lo Hla Hlo Hnan. rewrite generate_map_spec. unfold map_destination.
    rewrite Hla, Hlo. unfold validate_location. cbn [fst snd]. rewrite Hnan.
    reflexivity.
  - repeat split.
Qed.

(** C4, as the claim words it: a call does not always add a record.  A
    latitude that is an [int] of 4301 digits cannot be printed, the
    location of the record is not built, and the history stays empty after
    one call. *)
Lemma unprintable_coordinate_stores_nothing :
  length (incident_log
            (session [mkCall (VStr "Building Fire") (VStr "High")
                             (VNum (NInt (10 ^ 4300))) (VStr "77.59") []
                             (VNum (NInt 500))]
                     (start observed_library (fun _ => 0)))) = 0.
Proof. vm_compute. reflexivity. Qed.

(** C4, amended. The history only grows at its end.  A session adds the
    records of those of its calls whose coordinates can be printed, in the
    order of the calls, each carrying the arguments of its call, and
    nothing else; coordinates that are texts, as the form sends them, can
    always be printed, and then N calls add N records.  Neither a click nor
    a helper removes or reorders what is there. *)
Theorem history_append_only (calls : list call) (w : world) :
  (exists new,
     incident_log (session calls w) = (incident_log w ++ new)%list /\
     Forall2 stored_for (filter stores calls) new) /\
  length (incident_log (session calls w))
  = length (incident_log w) + length (filter stores calls) /\
  (forallb stores calls = true ->
   length (incident_log (session calls w)) = length (incident_log w) + length calls) /\
  (forall lib r,
     length (incident_log (session calls (start lib r))) = length (filter stores calls)) /\
  (forall c s t, c_latitude c = VStr s -> c_longitude c = VStr t -> stores c = true) /\
  (forall c, exists new,
     incident_log (click w c) = (incident_log w ++ new)%list /\ length new <= 1) /\
  (forall lat lon, incident_log (snd (generate_map lat lon w)) = incident_log w) /\
  (forall counts, snd (generate_equipment_chart counts w) = w) /\
  (forall log, snd (generate_water_chart log w) = w).
Proof.
  assert (L : forall w0, length (incident_log (session calls w0))
                         = length (incident_log w0) + length (filter stores calls)).
  { intros w0. destruct (session_log calls w0) as (new & Hlog & Hfor & _).
    rewrite Hlog, length_app. f_equal. symmetry. exact (Forall2_length Hfor). }
  split_all.
  - destruct (session_log calls w) as (new & Hlog & Hfor & _). exists new. auto.
  - apply L.
  - intros Hall. rewrite L. f_equal. clear L.
    induction calls as [|c calls IH]; [reflexivity|].
    simpl in Hall |- *. apply andb_prop in Hall. destruct Hall as [Hc Hall].
    rewrite Hc. simpl. f_equal. exact (IH Hall).
  - intros lib r. rewrite L. reflexivity.
  - intros c s t Hs Ht. unfold stores. rewrite Hs, Ht. reflexivity.
  - intros c. rewrite click_log. exists (stored w c). split; [reflexivity|].
    unfold stored. destruct (format_location _ _); simpl; lia.
  - intros lat lon. rewrite generate_map_spec.
    destruct (map_destination lat lon); reflexivity.
  - intros counts. rewrite generate_equipment_chart_spec. reflexivity.
  - intros log. rewrite generate_water_chart_spec. reflexivity.
Qed.

(** C5, as the claim words it: a latitude that is no number makes the
    handler raise instead of returning. *)
Lemma dispatch_incident_can_raise :
  fst (dispatch_incident (VStr "Building Fire") (VStr "High") (VStr "abc")
         (VStr "77.5950") ["🧯 Fire Extinguisher"] (VNum (NInt 500))
         (start observed_library (fun _ => 0)))
  = Raise ValueError.
Proof. vm_compute. reflexivity. Qed.

(** C5, amended. The handler returns exactly when the five values it
    prints can be printed, pandas and matplotlib accept the history and
    the two charts, and [float] turns the latitude and the longitude into
    numbers other than NaN; in every other case it ends with an exception.
    When it returns it has gone through the three stages (three seconds
    slept, the timeline Dispatched, On Scene, Resolved in the report) and
    its five values are the report, the frame of the updated history, the
    two charts and the path of the map it wrote. *)
Theorem dispatch_incident_returns_five (c : call) (w : world) :
  (is_ok (fst (run_call c w)) = true <->
   values_print c = true /\
   libraries_accept w c = true /\
   exists la lo, is_coordinate (c_latitude c) la /\ is_coordinate (c_longitude c) lo) /\
  (forall report df eq_chart water_chart map_path,
     fst (run_call c w) = Ok (report, df, eq_chart, water_chart, map_path) ->
     str_in timeline report = true /\
     slept (click w c) = slept w + 3 /\
     length (incident_log (click w c)) = S (length (incident_log w)) /\
     DataFrame (libs w) (incident_log (click w c)) = Ok df /\
     savefig (libs w) (equipment_figure (drawn_counts (c_equipment c) w))
     = Ok eq_chart /\
     (forall k, In k (keys (drawn_counts (c_equipment c) w)) <-> In k (c_equipment c)) /\
     savefig (libs w) (water_figure df) = Ok water_chart /\
     map_path = "/tmp/map.html" /\
     exists la lo,
       is_coordinate (c_latitude c) la /\ is_coordinate (c_longitude c) lo /\
       tmp_map_html (click w c) = Some (movement_map (la, lo))).
Proof.
  split.
  - rewrite run_call_ok, !andb_true_iff. split.
    + intros [[Hp Hl] Hd]. split; [exact Hp|]. split; [exact Hl|].
      destruct (map_destination (c_latitude c) (c_longitude c)) as [[la lo]|] eqn:E;
        [|discriminate Hd].
      exists la, lo. exact (map_destination_ok_inv _ _ _ E).
    + intros (Hp & Hl & la & lo & Hla & Hlo).
      rewrite (map_destination_ok _ _ _ _ Hla Hlo). auto.
  - intros report df eq_chart water_chart map_path Hret.
    destruct (run_call_returns _ _ _ _ _ _ _ Hret)
      as (location & [la lo] & Hloc & Hdf & Heq & Hwc & Hrep & Hd & Hpath & Hw).
    rewrite Hw. cbn [after_draws incident_log slept tmp_map_html].
    split_all; try assumption; try reflexivity.
    + rewrite format_report_spec in Hrep.
      destruct (py_str (c_incident_type c)), (py_str (c_latitude c)),
        (py_str (c_longitude c)), (py_str (c_severity c)), (py_str (c_water_used c));
        try discriminate Hrep.
      injection Hrep as <-. unfold report_text. find_here.
    + rewrite length_app. simpl. lia.
    + destruct (equipment_comprehension_run (c_equipment c) [] (advance w))
        as (d & w' & Hrun & _ & Hk & _).
      destruct (drawn_counts_run (c_equipment c) w) as (Hrun' & _).
      rewrite Hrun' in Hrun. injection Hrun as <- _.
      intros k. rewrite Hk. simpl. tauto.
    + apply map_destination_ok_inv in Hd. cbn [fst snd] in Hd.
      exists la, lo. split; [exact (proj1 Hd)|]. split; [exact (proj2 Hd) | reflexivity].
Qed.

Lemma dispatch_incident_returns_five_witness :
  is_ok (fst (run_call (mkCall (VStr "Road Accident") (VStr "Medium") (VStr "12.97")
                               (VStr "77.59") ["💧 Water Hose"]
                               (VNum (NFloat (FDec false 500 0))))
                       (start observed_library (fun i => i)))) = true.
Proof.
  apply (proj1 (dispatch_incident_returns_five
                  (mkCall (VStr "Road Accident") (VStr "Medium") (VStr "12.97")
                          (VStr "77.59") ["💧 Water Hose"]
                          (VNum (NFloat (FDec false 500 0))))
                  (start observed_library (fun i => i)))).
  split; [vm_compute; reflexivity|]. split; [vm_compute; reflexivity|].
  exists (FDec false 1297 (-2)), (FDec false 7759 (-2)).
  split; split; reflexivity.
Defined.

(** C6. The dict comprehension over the selection never raises; the keys
    of the dict it builds are exactly the selected labels (each once) and
    every value is an integer from 1 to 3; the empty selection gives the
    empty dict. *)
Theorem equipment_count_keys_and_values :
  (forall (equipment : list string) (w : world),
     exists counts w',
       equipment_comprehension equipment [] w = (Ok counts, w') /\
       (forall k, In k (keys counts) <-> In k equipment) /\
       NoDup (keys counts) /\
       Forall in_1_3 (values counts)) /\
  (forall w : world, equipment_comprehension [] [] w = (Ok [], w)).
Proof.
  split; [|reflexivity].
  intros equipment w.
  destruct (equipment_comprehension_run equipment [] w)
    as (counts & w' & Hrun & _ & Hk & Hnd & Hv).
  exists counts, w'. split; [exact Hrun|]. split; [|split].
  - intros k. rewrite Hk. simpl. tauto.
  - apply Hnd. constructor.
  - apply Hv. constructor.
Qed.

(** C7, as the claim words it: the placeholder is not drawn instead of
    axes.  The text is put on the axes that [plt.subplots] created and
    nothing turns them off, so the image shows the empty axes with the text
    in their middle. *)
Lemma placeholder_keeps_axes :
  exists fig,
    fst (generate_water_chart [] (start observed_library (fun _ => 0))) = Ok (PNG fig) /\
    map text_s (texts fig) = ["No Incidents Yet"] /\
    axes_on fig = true.
Proof. eexists. vm_compute. repeat split. Qed.

(** C7, amended. On the empty history [generate_water_chart], unless
    pandas or matplotlib raise, returns the placeholder: axes without bar,
    title or axis label, and on them the text "No Incidents Yet" centred at
    (0.5, 0.5).  On a history with records it returns, unless pandas or
    matplotlib raise, a different image: no text and one blue bar per
    record, at the record's index and as high as the frame's water column
    has it, which for numbers of 64 bits is the stored values if all are
    [int] and their [float] values otherwise.  The helper changes nothing
    of the world. *)
Theorem water_chart_placeholder (w : world) :
  (forall img,
     fst (generate_water_chart [] w) = Ok img ->
     img = PNG (mkFigure (5, 3)%Z true
                  [mkText (FDec false 5 (-1)) (FDec false 5 (-1))
                          "No Incidents Yet" "center" "center"]
                  [] None None None None false)) /\
  (is_ok (fst (generate_water_chart [] w)) = true <->
   frame_error (libs w) [] = None /\
   render_error (libs w) placeholder_figure = None) /\
  (forall (r : incident_record) (log : list incident_record) (img : image),
     fst (generate_water_chart (r :: log) w) = Ok img ->
     exists fig,
       img = PNG fig /\
       fig <> placeholder_figure /\
       texts fig = [] /\
       axes_on fig = true /\
       map bar_x (bars fig) = map XIndex (seq 0 (length (r :: log))) /\
       map bar_height (bars fig)
       = frame_column (libs w) (map Water_Used_L (r :: log)) /\
       length (bars fig) = length (r :: log) /\
       Forall (fun b => bar_color b = "blue") (bars fig)) /\
  (forall (r : incident_record) (log : list incident_record),
     is_ok (fst (generate_water_chart (r :: log) w)) = true <->
     frame_error (libs w) (r :: log) = None /\
     render_error (libs w)
       (bars_figure (frame_column (libs w) (map Water_Used_L (r :: log)))) = None) /\
  (forall col : list pyval,
     forallb plain_number col = true ->
     frame_column (libs w) col = if forallb is_int col then col else map as_float64 col) /\
  (forall log, snd (generate_water_chart log w) = w).
Proof.
  split_all.
  - intros img. rewrite generate_water_chart_spec. cbn [fst]. unfold DataFrame.
    destruct (frame_error (libs w) []); [discriminate|].
    unfold water_figure, df_empty, savefig. cbn [df_rows].
    destruct (render_error (libs w) placeholder_figure); [discriminate|].
    now intros [= <-].
  - rewrite generate_water_chart_spec. cbn [fst]. unfold DataFrame.
    destruct (frame_error (libs w) []);
      [split; [discriminate | intros [H _]; discriminate H]|].
    unfold water_figure, df_empty, savefig. cbn [df_rows].
    destruct (render_error (libs w) placeholder_figure);
      [split; [discriminate | intros [_ H]; discriminate H] | split; auto].
  - intros r log img. rewrite generate_water_chart_spec. cbn [fst]. unfold DataFrame.
    destruct (frame_error (libs w) (r :: log)); [discriminate|].
    unfold water_figure, df_empty, savefig. cbn [df_rows df_water].
    destruct (render_error (libs w) _); [discriminate|].
    intros [= <-]. eexists. split; [reflexivity|].
    destruct (bars_figure_bars (frame_column (libs w) (map Water_Used_L (r :: log))))
      as (Hx & Hh & Hl & Hc).
    rewrite frame_column_length, length_map in Hx, Hl.
    split_all; try assumption; try reflexivity.
    discriminate.
  - intros r log. rewrite generate_water_chart_spec. cbn [fst]. unfold DataFrame.
    destruct (frame_error (libs w) (r :: log));
      [split; [discriminate | intros [H _]; discriminate H]|].
    unfold water_figure, df_empty, savefig. cbn [df_rows df_water].
    destruct (render_error (libs w) _);
      [split; [discriminate | intros [_ H]; discriminate H] | split; auto].
  - intros col H. unfold frame_column. rewrite H. reflexivity.
  - intros log. rewrite generate_water_chart_spec. reflexivity.
Qed.

(** C8, as the claim words it: a dispatch with a severity outside the
    three levels and a label outside the catalog stores both unchanged, so
    the record in the history breaks the invariant. *)
Lemma stored_record_can_break_invariant :
  ~ Forall record_invariant
      (incident_log
         (session [mkCall (VStr "Building Fire") (VStr "Extreme") (VStr "12.97")
                          (VStr "77.59") ["🪜 Ladder"] (VNum (NInt 500))]
                  (start observed_library (fun _ => 0)))).
Proof.
  intros H. vm_compute in H. inversion H as [|r l Hr _]; subst.
  destruct Hr as (_ & _ & s & Hs & Heq).
  destruct Hs as [<-|[<-|[<-|[]]]]; discriminate Heq.
Qed.

Lemma Forall2_stored_for_calls (calls : list call) (new : list incident_record) :
  Forall2 stored_for (filter stores calls) new ->
  Forall (fun r => exists c, In c calls /\ stored_for c r) new.
Proof.
  intros H.
  assert (G : Forall (fun r => exists c, In c (filter stores calls) /\ stored_for c r) new).
  { induction H as [|c r l l' Hcr _ IH]; constructor.
    - exists c. split; [left; reflexivity | exact Hcr].
    - apply (Forall_impl _ (P := fun r => exists c0, In c0 l /\ stored_for c0 r));
        [|exact IH].
      intros r0 (c0 & Hin & Hs). exists c0. split; [right; exact Hin | exact Hs]. }
  apply (Forall_impl _ (P := fun r => exists c, In c (filter stores calls) /\ stored_for c r));
    [|exact G].
  intros r (c & Hc & Hs). exists c. split; [|exact Hs].
  apply filter_In in Hc. exact (proj1 Hc).
Qed.

(** C8, amended. Every record a session stores has a vehicle that is a
    key of the roster, and its severity and its equipment are those of one
    of the calls, stored as they were passed, without a check.  So the
    invariant (equipment from the catalog, vehicle from the roster,
    severity one of Low, Medium, High) holds of the new records, and is
    kept by the history, whenever every call has a severity among the
    three levels and equipment from the catalog, which is what the form
    sends. *)
Theorem record_invariant_preserved (calls : list call) (w : world) :
  exists new,
    incident_log (session calls w) = (incident_log w ++ new)%list /\
    Forall (fun r =>
              In (Vehicle r) (keys vehicles) /\
              exists c, In c calls /\
                        Severity r = c_severity c /\
                        Equipment_Used r = join ", " (c_equipment c)) new /\
    (Forall valid_call calls -> Forall record_invariant new) /\
    (Forall valid_call calls -> Forall record_invariant (incident_log w) ->
     Forall record_invariant (incident_log (session calls w))).
Proof.
  destruct (session_log calls w) as (new & Hlog & Hfor & Hveh & _).
  pose proof (Forall2_stored_for_calls calls new Hfor) as Hc.
  assert (Hinv : Forall valid_call calls -> Forall record_invariant new).
  { intros Hvalid. rewrite Forall_forall in Hveh, Hc, Hvalid |- *.
    intros r Hr. destruct (Hc r Hr) as (c & Hin & _ & _ & Hsev & Heq & _).
    destruct (Hvalid c Hin) as (Hincl & s & Hs & Hcs).
    split; [|split].
    - exists (c_equipment c). split; assumption.
    - exact (Hveh r Hr).
    - exists s. split; [exact Hs | congruence]. }
  exists new. split_all.
  - exact Hlog.
  - rewrite Forall_forall in Hveh, Hc |- *. intros r Hr.
    split; [exact (Hveh r Hr)|].
    destruct (Hc r Hr) as (c & Hin & _ & _ & Hsev & Heq & _).
    exists c. auto.
  - exact Hinv.
  - intros Hvalid Hw. rewrite Hlog. apply Forall_app. split; [exact Hw | exact (Hinv Hvalid)].
Qed.

Lemma record_invariant_preserved_witness :
  Forall valid_call two_clicks /\
  Forall record_invariant
    (incident_log (session two_clicks (start observed_library (fun i => i)))).
Proof.
  assert (Hc : Forall valid_call two_clicks).
  { constructor; [|constructor; [|constructor]]; split; simpl.
    - intros x [<-|[<-|[]]]; simpl; tauto.
    - exists "High". simpl. tauto.
    - intros x [].
    - exists "Low". simpl. tauto. }
  split; [exact Hc|].
  destruct (record_invariant_preserved two_clicks (start observed_library (fun i => i)))
    as (new & _ & _ & _ & H).
  apply H; [exact Hc | constructor].
Defined.




(** C10. [ai_route] is defined on every value: whatever is not the string
    "High" nor the string "Medium" (another string, the empty one, a
    number, [None]) gets the normal shortest route and 25 minutes. *)
Theorem ai_route_default (severity : pyval)
    (Hhigh : severity <> VStr "High")
    (Hmedium : severity <> VStr "Medium") :
  ai_route severity = ("🛣 Normal Shortest Route", 25%Z).
Proof.
  unfold ai_route.
  assert (E : forall s, severity <> VStr s -> py_eq_str severity s = false).
  { intros s Hs. destruct severity as [|n|t]; try reflexivity.
    simpl. apply String.eqb_neq. congruence. }
  rewrite (E "High" Hhigh), (E "Medium" Hmedium). reflexivity.
Qed.

Lemma ai_route_default_witness :
  VStr "high" <> VStr "High" /\
  VStr "high" <> VStr "Medium" /\
  ai_route (VStr "high") = ("🛣 Normal Shortest Route", 25%Z).
Proof.
  split; [discriminate|]. split; [discriminate|].
  apply (ai_route_default (VStr "high")); discriminate.
Defined.

(** The same on the empty string, on [None] and on a number. *)
Example ai_route_default_samples :
  ai_route (VStr "") = ("🛣 Normal Shortest Route", 25%Z) /\
  ai_route VNone = ("🛣 Normal Shortest Route", 25%Z) /\
  ai_route (VNum (NInt 3)) = ("🛣 Normal Shortest Route", 25%Z).
Proof. repeat split. Qed.

(* ================================================================== *)
(** ** Further properties of the code *)

(** X1. The minutes tell the tier back: [ai_route] answers 12 only for the
    string "High", 18 only for the string "Medium", and 25 for everything
    else, so the three routes never overlap and no other value exists. *)
Theorem ai_route_minutes_decide_severity (severity : pyval) :
  (snd (ai_route severity) = 12%Z <-> severity = VStr "High") /\
  (snd (ai_route severity) = 18%Z <-> severity = VStr "Medium") /\
  (snd (ai_route severity) = 25%Z <->
   severity <> VStr "High" /\ severity <> VStr "Medium") /\
  (fst (ai_route severity) = "🛣 Emergency Green Corridor" <->
   snd (ai_route severity) = 12%Z) /\
  (fst (ai_route severity) = "🛣 Traffic-Aware City Route" <->
   snd (ai_route severity) = 18%Z).
Proof.
  assert (E : forall s, py_eq_str severity s = true <-> severity = VStr s).
  { intros s. destruct severity as [|n|t]; simpl;
      [split; discriminate | split; discriminate |].
    rewrite String.eqb_eq. split; [now intros -> | now intros [= ->]]. }
  unfold ai_route.
  destruct (py_eq_str severity "High") eqn:H1.
  - apply E in H1. subst severity. simpl.
    repeat split; try discriminate; try reflexivity; intros [? ?]; congruence.
  - destruct (py_eq_str severity "Medium") eqn:H2.
    + apply E in H2. subst severity. simpl.
      repeat split; try discriminate; try reflexivity; intros [? ?]; congruence.
    + assert (N1 : severity <> VStr "High").
      { intros H. apply E in H. congruence. }
      assert (N2 : severity <> VStr "Medium").
      { intros H. apply E in H. congruence. }
      simpl. repeat split; try discriminate; try assumption; try reflexivity;
        intros; contradiction.
Qed.

(** X2. [generate_equipment_chart] hands matplotlib a figure with one
    tomato bar per key of the dict, in the dict's order, labelled by the
    key and as high as its count, without text, titled even for the empty
    dict; it returns the image of that figure unless matplotlib raises,
    and then it ends with matplotlib's exception.  The world is not
    changed. *)
Theorem equipment_chart_bars (equipment_counts : list (string * Z)) (w : world) :
  exists fig,
    (forall img, fst (generate_equipment_chart equipment_counts w) = Ok img ->
                 img = PNG fig) /\
    outcome (fst (generate_equipment_chart equipment_counts w))
    = render_error (libs w) fig /\
    snd (generate_equipment_chart equipment_counts w) = w /\
    map bar_x (bars fig) = map XLabel (keys equipment_counts) /\
    map bar_height (bars fig)
    = map (fun n => VNum (NInt n)) (values equipment_counts) /\
    Forall (fun b => bar_color b = "tomato") (bars fig) /\
    length (bars fig) = length equipment_counts /\
    texts fig = [] /\
    title fig = Some "🧰 Equipment Usage" /\
    ylabel fig = Some "Units Used" /\
    xticks_rotation fig = Some 15%Z.
Proof.
  exists (equipment_figure equipment_counts).
  rewrite generate_equipment_chart_spec. cbn [fst snd]. unfold savefig.
  split_all; try reflexivity.
  - destruct (render_error (libs w) _); [discriminate | now intros img [= <-]].
  - destruct (render_error (libs w) _); reflexivity.
  - unfold equipment_figure, keys. cbn [bars]. rewrite !map_map. reflexivity.
  - unfold equipment_figure, values. cbn [bars]. rewrite !map_map. reflexivity.
  - apply Forall_forall. intros b Hb. apply in_map_iff in Hb.
    destruct Hb as (kv & <- & _). reflexivity.
  - unfold equipment_figure. cbn [bars]. apply length_map.
Qed.

(** X3. The dict comprehension keeps the order of first selection: the
    keys of the result are the distinct labels in the order in which they
    first occur, so a label selected twice has one entry; and it takes one
    draw per selected label, repeated or not, from the random source and
    changes nothing else of the world. *)
Theorem equipment_count_order_and_draws (equipment : list string) (w : world) :
  exists counts w',
    equipment_comprehension equipment [] w = (Ok counts, w') /\
    keys counts = distinct_in_order equipment /\
    length counts <= length equipment /\
    (forall i, rng w' i = rng w (length equipment + i)) /\
    incident_log w' = incident_log w /\
    slept w' = slept w /\
    tmp_map_html w' = tmp_map_html w.
Proof.
  destruct (equipment_comprehension_trace equipment [] w) as (counts & Hrun & Hk & _).
  eexists counts, _. split; [exact Hrun|]. cbn [incident_log rng slept tmp_map_html].
  split_all; try reflexivity.
  - exact Hk.
  - rewrite <- (length_map fst counts). fold (keys counts). rewrite Hk.
    apply (fold_add_key_length equipment []).
Qed.

(** X4. Looking a label up in the dict the comprehension built: a selected
    label has a count from 1 to 3, and a label that was not selected is
    missing. *)
Theorem equipment_count_lookup (equipment : list string) (w : world) :
  exists counts w',
    equipment_comprehension equipment [] w = (Ok counts, w') /\
    forall k,
      match dict_get counts k with
      | Some v => In k equipment /\ in_1_3 v
      | None => ~ In k equipment
      end.
Proof.
  destruct (equipment_comprehension_trace equipment [] w) as (counts & Hrun & _ & _ & Hg).
  eexists counts, _. split; [exact Hrun|].
  intros k. specialize (Hg k). destruct (dict_get counts k) as [v|].
  - destruct Hg as [Hg|Hg]; [exact Hg | discriminate Hg].
  - exact (proj1 Hg).
Qed.

(** X5. A click sleeps two seconds before it stores its record and one
    more once the frame of the history is built: three seconds when it
    gets that far, as every click that returns does, and two when the
    location cannot be printed or pandas refuses the history.  A session
    of N clicks has slept between 2 N and 3 N seconds more. *)
Theorem session_sleeps_two_or_three_seconds_a_click (calls : list call) (w : world) :
  slept w + 2 * length calls <= slept (session calls w) <= slept w + 3 * length calls /\
  (forall c, slept (click w c) = slept w + (if reaches_resolved w c then 3 else 2)) /\
  (forall c, is_ok (fst (run_call c w)) = true -> slept (click w c) = slept w + 3) /\
  (forall c, stores c = false -> slept (click w c) = slept w + 2).
Proof.
  split_all.
  - revert w. induction calls as [|c calls IH]; intros w; [simpl; lia|].
    rewrite session_cons. specialize (IH (click w c)). rewrite click_slept in IH.
    cbn [length]. destruct (reaches_resolved w c); lia.
  - revert w. induction calls as [|c calls IH]; intros w; [simpl; lia|].
    rewrite session_cons. specialize (IH (click w c)). rewrite click_slept in IH.
    cbn [length]. destruct (reaches_resolved w c); lia.
  - intros c. apply click_slept.
  - intros c Hok. rewrite click_slept.
    rewrite run_call_ok, !andb_true_iff in Hok. destruct Hok as [[Hp Hl] _].
    unfold reaches_resolved. rewrite (stores_of_values_print c Hp).
    unfold libraries_accept in Hl.
    destruct (DataFrame (libs w) (history_after w c)); [reflexivity | discriminate Hl].
  - intros c Hs. rewrite click_slept. unfold reaches_resolved. rewrite Hs. reflexivity.
Qed.

(** X6. Every click takes exactly one draw for the vehicle and one for
    each selected label from the random source, whether the request
    succeeds or fails: after a session the source has moved on by the sum
    of these. *)
Theorem session_consumes_draws (calls : list call) (w : world) (i : nat) :
  rng (session calls w) i = rng w (draws_of_session calls + i).
Proof.
  revert w i. induction calls as [|c calls IH]; intros w i.
  - reflexivity.
  - rewrite session_cons, IH, click_rng. f_equal.
    change (draws_of_session (c :: calls)) with (draws_of c + draws_of_session calls).
    lia.
Qed.

(** X7. The vehicle of a request is decided by the first draw alone: the
    record a click stores, if it stores one, names the roster key at
    position (draw mod 3), whatever the incident, the severity, the place
    or the equipment, and so does the report, if one is returned. *)
Theorem vehicle_is_the_first_draw (w : world) (c : call) :
  (exists new,
     incident_log (click w c) = (incident_log w ++ new)%list /\
     length new = (if stores c then 1 else 0) /\
     Forall (fun r => nth_error (keys vehicles) (rng w 0 mod 3) = Some (Vehicle r)) new) /\
  (forall report df eq_chart water_chart map_path vehicle,
     fst (run_call c w) = Ok (report, df, eq_chart, water_chart, map_path) ->
     nth_error (keys vehicles) (rng w 0 mod 3) = Some vehicle ->
     str_in ("Vehicle       : " ++ vehicle) report = true).
Proof.
  destruct (drawn_vehicle_roster w) as (Hnth & _ & _).
  split.
  - exists (stored w c). rewrite click_log. split; [reflexivity|].
    destruct (stored_spec w c) as [[Hs ->]|(r & Hs & -> & _ & _ & _ & Hv)];
      rewrite Hs; split; try reflexivity; [constructor|].
    constructor; [|constructor]. rewrite Hv. exact Hnth.
  - intros report df eq_chart water_chart map_path vehicle Hret Hv.
    rewrite Hnth in Hv. injection Hv as <-.
    destruct (run_call_returns _ _ _ _ _ _ _ Hret)
      as (location & dest & _ & _ & _ & _ & Hrep & _).
    rewrite format_report_spec in Hrep.
    destruct (py_str (c_incident_type c)), (py_str (c_latitude c)),
      (py_str (c_longitude c)), (py_str (c_severity c)), (py_str (c_water_used c));
      try discriminate Hrep.
    injection Hrep as <-. unfold report_text.
    find_line "

🚒 " "Vehicle       : ".
Qed.

(** X8. The fields the handler fills in itself agree with its tables in
    every record: the officers are the crew of the record's vehicle joined
    by commas, and route and minutes are those [ai_route] gives for the
    record's severity.  A session keeps this for the whole history,
    whatever the inputs and whether the requests succeed. *)
Theorem records_stay_consistent (calls : list call) (w : world)
    (Hw : forallb record_consistent (incident_log w) = true) :
  forallb record_consistent (incident_log (session calls w)) = true.
Proof.
  destruct (session_log calls w) as (new & Hlog & _ & _ & Hnew).
  rewrite Hlog, forallb_app, Hw, Hnew. reflexivity.
Qed.

Lemma records_stay_consistent_witness :
  forallb record_consistent (incident_log (start observed_library (fun i => 2 * i)))
  = true /\
  forallb record_consistent
    (incident_log (session two_clicks (start observed_library (fun i => 2 * i)))) = true.
Proof.
  split; [reflexivity|].
  apply (records_stay_consistent two_clicks (start observed_library (fun i => 2 * i))).
  reflexivity.
Defined.

(** X9. The file of the map changes only when the handler returns, and
    then it is the map of that request; a request that raises, at
    whatever step, leaves the file as it was, so the file may show an
    older request than the last record of the history.  [generate_map] by
    itself replaces the file when the destination is accepted and leaves
    it alone when it raises. *)
Theorem map_file_changes_only_on_return (w : world) (c : call) :
  (forall out,
     fst (run_call c w) = Ok out ->
     exists la lo,
       is_coordinate (c_latitude c) la /\ is_coordinate (c_longitude c) lo /\
       tmp_map_html (click w c) = Some (movement_map (la, lo))) /\
  (forall e, fst (run_call c w) = Raise e -> tmp_map_html (click w c) = tmp_map_html w) /\
  (forall lat lon,
     tmp_map_html (snd (generate_map lat lon w)) =
     match map_destination lat lon with
     | Ok dest => Some (movement_map dest)
     | Raise _ => tmp_map_html w
     end).
Proof.
  split_all.
  - intros out Hret. rewrite click_file, Hret.
    assert (Hok : is_ok (fst (run_call c w)) = true) by (rewrite Hret; reflexivity).
    rewrite run_call_ok, !andb_true_iff in Hok. destruct Hok as [_ Hd].
    destruct (map_destination (c_latitude c) (c_longitude c)) as [[la lo]|] eqn:E;
      [|discriminate Hd].
    apply map_destination_ok_inv in E. cbn [fst snd] in E.
    exists la, lo. split; [exact (proj1 E)|]. split; [exact (proj2 E) | reflexivity].
  - intros e Hr. rewrite click_file, Hr. reflexivity.
  - intros lat lon. rewrite generate_map_spec.
    destruct (map_destination lat lon); reflexivity.
Qed.

(** X10. When the values print and the libraries accept the history and
    the charts, the handler fails exactly as [generate_map] fails on its
    coordinates, in whatever world: both end with the same exception or
    both return, and the exception is a [ValueError], a [TypeError] or an
    [OverflowError].  The roster lookup and the random choice never
    raise. *)
Theorem dispatch_fails_as_generate_map (c : call) (w w0 : world)
    (Hprint : values_print c = true)
    (Hlibs : libraries_accept w c = true) :
  outcome (fst (run_call c w))
  = outcome (fst (generate_map (c_latitude c) (c_longitude c) w0)) /\
  outcome (fst (generate_map (c_latitude c) (c_longitude c) w0))
  = outcome (map_destination (c_latitude c) (c_longitude c)) /\
  (forall e,
     outcome (fst (run_call c w)) = Some e ->
     e = ValueError \/ e = TypeError \/ e = OverflowError).
Proof.
  assert (H1 : outcome (fst (generate_map (c_latitude c) (c_longitude c) w0))
               = outcome (map_destination (c_latitude c) (c_longitude c))).
  { rewrite generate_map_spec.
    destruct (map_destination (c_latitude c) (c_longitude c)); reflexivity. }
  assert (H2 : outcome (fst (run_call c w))
               = outcome (map_destination (c_latitude c) (c_longitude c))).
  { pose proof (run_call_ok c w) as Hok. rewrite Hprint, Hlibs in Hok. cbn [andb] in Hok.
    destruct (fst (run_call c w)) as [out|e] eqn:Hr.
    - destruct (map_destination (c_latitude c) (c_longitude c));
        [reflexivity | discriminate Hok].
    - destruct (run_call_raises c w e Hr) as [[Hv _]|[Hv|Hv]]; try congruence.
      rewrite Hv. reflexivity. }
  split; [congruence|]. split; [exact H1|].
  intros e He. rewrite H2 in He.
  destruct (map_destination (c_latitude c) (c_longitude c)) as [dest|e0] eqn:Hd;
    [discriminate He|].
  injection He as <-. exact (map_destination_raises _ _ _ Hd).
Qed.

Lemma dispatch_fails_as_generate_map_witness :
  values_print bad_latitude = true /\
  libraries_accept (session two_clicks (start observed_library (fun i => i)))
                   bad_latitude = true /\
  outcome (fst (run_call bad_latitude
                  (session two_clicks (start observed_library (fun i => i)))))
  = outcome (fst (generate_map (c_latitude bad_latitude) (c_longitude bad_latitude)
                    (start observed_library (fun _ => 0)))) /\
  outcome (fst (generate_map (c_latitude bad_latitude) (c_longitude bad_latitude)
                  (start observed_library (fun _ => 0))))
  = outcome (map_destination (c_latitude bad_latitude) (c_longitude bad_latitude)) /\
  (forall e,
     outcome (fst (run_call bad_latitude
                     (session two_clicks (start observed_library (fun i => i)))))
     = Some e ->
     e = ValueError \/ e = TypeError \/ e = OverflowError).
Proof.
  split; [vm_compute; reflexivity|]. split; [vm_compute; reflexivity|].
  apply (dispatch_fails_as_generate_map bad_latitude
           (session two_clicks (start observed_library (fun i => i)))
           (start observed_library (fun _ => 0)));
    vm_compute; reflexivity.
Defined.

(** X11. What the report shows is what the history keeps: whenever the
    handler returns, its report has the lines for incident type, location,
    severity, vehicle, officers, route, minutes, equipment and water with
    exactly the values of the record it appended. *)
Theorem report_agrees_with_record (c : call) (w : world)
    (Hret : is_ok (fst (run_call c w)) = true) :
  exists report df eq_chart water_chart map_path r s_incident s_severity s_water,
    fst (run_call c w) = Ok (report, df, eq_chart, water_chart, map_path) /\
    incident_log (click w c) = (incident_log w ++ [r])%list /\
    py_str (Incident r) = Ok s_incident /\
    py_str (Severity r) = Ok s_severity /\
    py_str (Water_Used_L r) = Ok s_water /\
    str_in ("Incident Type : " ++ s_incident) report = true /\
    str_in ("Location      : " ++ Location r) report = true /\
    str_in ("Severity      : " ++ s_severity) report = true /\
    str_in ("Vehicle       : " ++ Vehicle r) report = true /\
    str_in ("Officers    : " ++ Officers r) report = true /\
    str_in ("AI Route      : " ++ Route r) report = true /\
    str_in ("ETA           : " ++ decimal_of_int (ETA_min r) ++ " minutes") report
    = true /\
    str_in ("Equipment Used:
" ++ Equipment_Used r ++ "
") report = true /\
    str_in ("Water Used: " ++ s_water ++ " Liters") report = true.
Proof.
  destruct (fst (run_call c w)) as [[[[[report df] eq_chart] water_chart] map_path]|e]
    eqn:Hr; [|discriminate Hret].
  destruct (run_call_returns _ _ _ _ _ _ _ Hr)
    as (location & dest & Hloc & _ & _ & _ & Hrep & _ & _ & Hw).
  rewrite Hw. cbn [after_draws incident_log].
  rewrite format_report_spec in Hrep.
  unfold format_location, result_bind in Hloc.
  destruct (py_str (c_incident_type c)) as [si|] eqn:E1; [|discriminate Hrep].
  destruct (py_str (c_latitude c)) as [sla|] eqn:E2; [|discriminate Hrep].
  destruct (py_str (c_longitude c)) as [slo|] eqn:E3; [|discriminate Hrep].
  destruct (py_str (c_severity c)) as [ss|] eqn:E4; [|discriminate Hrep].
  destruct (py_str (c_water_used c)) as [sw|] eqn:E5; [|discriminate Hrep].
  injection Hrep as <-. injection Hloc as <-.
  exists (report_text si sla slo ss (drawn_vehicle w)
            (join ", " (crew_of (drawn_vehicle w))) (fst (ai_route (c_severity c)))
            (decimal_of_int (snd (ai_route (c_severity c))))
            (join ", " (c_equipment c)) sw timeline),
    df, eq_chart, water_chart, map_path,
    (record_of c (sla ++ ", " ++ slo) w), si, ss, sw.
  cbn [record_of Incident Location Severity Vehicle Officers Route ETA_min
       Equipment_Used Water_Used_L].
  split; [reflexivity|]. split; [reflexivity|].
  split; [exact E1|]. split; [exact E4|]. split; [exact E5|].
  unfold report_text. split_all.
  - find_line "
━━━━━━━━ 🚨 INCIDENT RESPONSE REPORT ━━━━━━━━

🔥 " "Incident Type : ".
  - find_line "
📍 " "Location      : ".
  - find_line "
⚠ " "Severity      : ".
  - find_line "

🚒 " "Vehicle       : ".
  - find_line "
👨‍🚒 " "Officers    : ".
  - find_line "

🛣 " "AI Route      : ".
  - find_line "
⏱ " "ETA           : ".
  - find_line " minutes

🧰 " "Equipment Used:
".
  - find_line "
💧 " "Water Used: ".
Qed.

Lemma report_agrees_with_record_witness :
  is_ok (fst (run_call direct_call (start observed_library (fun i => i)))) = true /\
  exists report df eq_chart water_chart map_path r s_incident s_severity s_water,
    fst (run_call direct_call (start observed_library (fun i => i)))
    = Ok (report, df, eq_chart, water_chart, map_path) /\
    incident_log (click (start observed_library (fun i => i)) direct_call)
    = (incident_log (start observed_library (fun i => i)) ++ [r])%list /\
    py_str (Incident r) = Ok s_incident /\
    py_str (Severity r) = Ok s_severity /\
    py_str (Water_Used_L r) = Ok s_water /\
    str_in ("Incident Type : " ++ s_incident) report = true /\
    str_in ("Location      : " ++ Location r) report = true /\
    str_in ("Severity      : " ++ s_severity) report = true /\
    str_in ("Vehicle       : " ++ Vehicle r) report = true /\
    str_in ("Officers    : " ++ Officers r) report = true /\
    str_in ("AI Route      : " ++ Route r) report = true /\
    str_in ("ETA           : " ++ decimal_of_int (ETA_min r) ++ " minutes") report
    = true /\
    str_in ("Equipment Used:
" ++ Equipment_Used r ++ "
") report = true /\
    str_in ("Water Used: " ++ s_water ++ " Liters") report = true.
Proof.
  split; [vm_compute; reflexivity|].
  apply (report_agrees_with_record direct_call (start observed_library (fun i => i))).
  vm_compute. reflexivity.
Defined.

(** X12. The table and the water chart the handler returns cover the
    whole history, the records of earlier failed requests included: the
    frame is built from the old history followed by the new record, and
    the chart has one bar per row, at the row's index and as high as the
    frame's water column has it.  For waters that are numbers of 64 bits
    the heights are the stored values if all are [int]; with a [float]
    among them every height is a [float]. *)
Theorem returned_table_and_chart_cover_history (c : call) (w : world)
    (Hret : is_ok (fst (run_call c w)) = true) :
  exists report df eq_chart fig map_path r,
    fst (run_call c w) = Ok (report, df, eq_chart, PNG fig, map_path) /\
    df_rows df = (incident_log w ++ [r])%list /\
    incident_log (click w c) = df_rows df /\
    Water_Used_L r = c_water_used c /\
    df_water df = frame_column (libs w) (map Water_Used_L (df_rows df)) /\
    map bar_height (bars fig) = df_water df /\
    map bar_x (bars fig) = map XIndex (seq 0 (S (length (incident_log w)))) /\
    (forallb plain_number (map Water_Used_L (df_rows df)) = true ->
     map bar_height (bars fig) =
     if forallb is_int (map Water_Used_L (df_rows df))
     then map Water_Used_L (df_rows df)
     else map as_float64 (map Water_Used_L (df_rows df))).
Proof.
  destruct (fst (run_call c w)) as [[[[[report df] eq_chart] water_chart] map_path]|e]
    eqn:Hr; [|discriminate Hret].
  destruct (run_call_returns _ _ _ _ _ _ _ Hr)
    as (location & dest & _ & Hdf & _ & Hwc & _ & _ & _ & Hw).
  rewrite Hw. cbn [after_draws incident_log].
  unfold DataFrame in Hdf.
  destruct (frame_error (libs w) _); [discriminate Hdf|]. injection Hdf as <-.
  unfold savefig in Hwc. destruct (render_error (libs w) _); [discriminate Hwc|].
  injection Hwc as <-.
  do 5 eexists. exists (record_of c location w). split; [reflexivity|].
  cbn [df_rows df_water record_of Water_Used_L].
  set (col := map Water_Used_L (incident_log w ++ [record_of c location w])).
  assert (Hne : df_empty (mkFrame (incident_log w ++ [record_of c location w])
                                  (frame_column (libs w) col)) = false).
  { unfold df_empty. cbn [df_rows]. destruct (incident_log w); reflexivity. }
  unfold water_figure. rewrite Hne. cbn [df_water].
  destruct (bars_figure_bars (frame_column (libs w) col)) as (Hx & Hh & _).
  rewrite frame_column_length in Hx. unfold col in Hx at 2.
  rewrite length_map, length_app in Hx. cbn [length] in Hx.
  replace (length (incident_log w) + 1) with (S (length (incident_log w))) in Hx by lia.
  split_all; try reflexivity; try assumption.
  intros Hplain. rewrite Hh. unfold frame_column. rewrite Hplain. reflexivity.
Qed.

Lemma returned_table_and_chart_cover_history_witness :
  is_ok (fst (run_call third_click
                (session two_clicks (start observed_library (fun i => i))))) = true /\
  exists report df eq_chart fig map_path r,
    fst (run_call third_click (session two_clicks (start observed_library (fun i => i))))
    = Ok (report, df, eq_chart, PNG fig, map_path) /\
    df_rows df
    = (incident_log (session two_clicks (start observed_library (fun i => i))) ++ [r])%list /\
    incident_log (click (session two_clicks (start observed_library (fun i => i)))
                        third_click) = df_rows df /\
    Water_Used_L r = c_water_used third_click /\
    df_water df
    = frame_column (libs (session two_clicks (start observed_library (fun i => i))))
                   (map Water_Used_L (df_rows df)) /\
    map bar_height (bars fig) = df_water df /\
    map bar_x (bars fig)
    = map XIndex
        (seq 0 (S (length (incident_log
                             (session two_clicks
                                (start observed_library (fun i => i))))))) /\
    (forallb plain_number (map Water_Used_L (df_rows df)) = true ->
     map bar_height (bars fig) =
     if forallb is_int (map Water_Used_L (df_rows df))
     then map Water_Used_L (df_rows df)
     else map as_float64 (map Water_Used_L (df_rows df))).
Proof.
  split; [vm_compute; reflexivity|].
  apply (returned_table_and_chart_cover_history third_click
           (session two_clicks (start observed_library (fun i => i)))).
  vm_compute. reflexivity.
Defined.

(** The same session on its numbers: the history holds the waters 500 (an
    [int]), 500.0 and 40 (an [int]); the frame holds three [float]s and the
    chart draws them. *)
Example mixed_waters_are_drawn_as_floats :
  map Water_Used_L
      (incident_log (click (session two_clicks (start observed_library (fun i => i)))
                           third_click))
  = [VNum (NInt 500); VNum (NFloat (FDec false 500 0)); VNum (NInt 40)] /\
  exists report df eq_chart fig map_path,
    fst (run_call third_click (session two_clicks (start observed_library (fun i => i))))
    = Ok (report, df, eq_chart, PNG fig, map_path) /\
    map bar_height (bars fig)
    = [VNum (NFloat (FDec false 500 0)); VNum (NFloat (FDec false 500 0));
       VNum (NFloat (FDec false 40 0))] /\
    df_water df = map bar_height (bars fig).
Proof.
  split; [vm_compute; reflexivity|].
  do 5 eexists. vm_compute. split; [reflexivity|]. split; reflexivity.
Qed.

(** X13. The equipment chart the handler returns has one bar per distinct
    selected label, in the order of first selection, and every bar is 1, 2
    or 3 units high. *)
Theorem returned_equipment_chart (c : call) (w : world)
    (Hret : is_ok (fst (run_call c w)) = true) :
  exists report df fig water_chart map_path,
    fst (run_call c w) = Ok (report, df, PNG fig, water_chart, map_path) /\
    map bar_x (bars fig) = map XLabel (distinct_in_order (c_equipment c)) /\
    Forall (fun b => exists v, bar_height b = VNum (NInt v) /\ in_1_3 v) (bars fig).
Proof.
  destruct (fst (run_call c w)) as [[[[[report df] eq_chart] water_chart] map_path]|e]
    eqn:Hr; [|discriminate Hret].
  destruct (run_call_returns _ _ _ _ _ _ _ Hr)
    as (location & dest & _ & _ & Heq & _).
  unfold savefig in Heq. destruct (render_error (libs w) _); [discriminate Heq|].
  injection Heq as <-.
  destruct (drawn_counts_run (c_equipment c) w) as (_ & Hk & Hv).
  do 5 eexists. split; [reflexivity|].
  unfold equipment_figure. cbn [bars]. split.
  - rewrite map_map. cbn [bar_x]. rewrite <- Hk. unfold keys. rewrite map_map.
    reflexivity.
  - unfold values in Hv. rewrite Forall_forall in Hv |- *.
    intros b Hb. apply in_map_iff in Hb. destruct Hb as ([k v] & <- & Hin).
    exists v. split; [reflexivity|]. apply Hv.
    change v with (snd (k, v)). apply in_map. exact Hin.
Qed.

Lemma returned_equipment_chart_witness :
  is_ok (fst (run_call third_click (start observed_library (fun i => i)))) = true /\
  exists report df fig water_chart map_path,
    fst (run_call third_click (start observed_library (fun i => i)))
    = Ok (report, df, PNG fig, water_chart, map_path) /\
    map bar_x (bars fig) = map XLabel (distinct_in_order (c_equipment third_click)) /\
    Forall (fun b => exists v, bar_height b = VNum (NInt v) /\ in_1_3 v) (bars fig).
Proof.
  split; [vm_compute; reflexivity|].
  apply (returned_equipment_chart third_click (start observed_library (fun i => i))).
  vm_compute. reflexivity.
Defined.

(** X14. The latitude is converted first: when [float] refuses the
    latitude, the values print and the libraries accept the history and
    the charts, the handler ends with that exception, whatever the
    longitude is, after it has stored the record. *)
Theorem latitude_is_converted_first (c : call) (w : world) (e : exn)
    (Hlat : py_float (c_latitude c) = Raise e)
    (Hprint : values_print c = true)
    (Hlibs : libraries_accept w c = true) :
  fst (run_call c w) = Raise e /\
  length (incident_log (click w c)) = S (length (incident_log w)).
Proof.
  assert (Hd : map_destination (c_latitude c) (c_longitude c) = Raise e).
  { unfold map_destination. rewrite Hlat. reflexivity. }
  split.
  - pose proof (run_call_ok c w) as Hok. rewrite Hd, andb_false_r in Hok.
    destruct (fst (run_call c w)) as [out|e'] eqn:Hr; [discriminate Hok|].
    destruct (run_call_raises c w e' Hr) as [[Hv _]|[Hv|Hv]]; congruence.
  - rewrite click_log. unfold history_after.
    destruct (stored_spec w c) as [[Hs _]|(r & _ & -> & _)].
    + rewrite (stores_of_values_print c Hprint) in Hs. discriminate Hs.
    + rewrite length_app. simpl. lia.
Qed.

Lemma latitude_is_converted_first_witness :
  py_float (c_latitude no_latitude) = Raise TypeError /\
  values_print no_latitude = true /\
  libraries_accept (start observed_library (fun i => i)) no_latitude = true /\
  fst (run_call no_latitude (start observed_library (fun i => i))) = Raise TypeError /\
  length (incident_log (click (start observed_library (fun i => i)) no_latitude))
  = S (length (incident_log (start observed_library (fun i => i)))).
Proof.
  split; [reflexivity|]. split; [vm_compute; reflexivity|].
  split; [vm_compute; reflexivity|].
  apply (latitude_is_converted_first no_latitude (start observed_library (fun i => i))
           TypeError); vm_compute; reflexivity.
Defined.

(** X15. For every accepted pair of coordinates [generate_map] writes the
    same shape of map: centred on the station at zoom 13, first the red
    path of weight 5 from the station to the destination, then the green
    station marker, then the red incident marker at the destination; the
    history, the clock and the random source are not touched. *)
Theorem generate_map_shape (lat lon : pyval) (la lo : pyfloat) (w : world)
    (Hlat : is_coordinate lat la)
    (Hlon : is_coordinate lon lo) :
  exists m w',
    generate_map lat lon w = (Ok "/tmp/map.html", w') /\
    tmp_map_html w' = Some m /\
    map_location m = station /\
    zoom_start m = 13%Z /\
    children m =
      [ AntPath [station; (la, lo)] "red" 5;
        Marker station "Fire Station" "green";
        Marker (la, lo) "Incident Location" "red" ] /\
    incident_log w' = incident_log w /\
    slept w' = slept w /\
    rng w' = rng w.
Proof.
  exists (movement_map (la, lo)). eexists.
  rewrite generate_map_spec, (map_destination_ok _ _ _ _ Hlat Hlon).
  split; [reflexivity|]. repeat split.
Qed.

Lemma generate_map_shape_witness :
  is_coordinate (VStr "-33.86") (FDec true 3386 (-2)) /\
  is_coordinate (VNum (NFloat (FInf false))) (FInf false) /\
  exists m w',
    generate_map (VStr "-33.86") (VNum (NFloat (FInf false)))
                 (session two_clicks (start observed_library (fun i => i)))
    = (Ok "/tmp/map.html", w') /\
    tmp_map_html w' = Some m /\
    map_location m = station /\
    zoom_start m = 13%Z /\
    children m =
      [ AntPath [station; (FDec true 3386 (-2), FInf false)] "red" 5;
        Marker station "Fire Station" "green";
        Marker (FDec true 3386 (-2), FInf false) "Incident Location" "red" ] /\
    incident_log w' = incident_log (session two_clicks (start observed_library (fun i => i))) /\
    slept w' = slept (session two_clicks (start observed_library (fun i => i))) /\
    rng w' = rng (session two_clicks (start observed_library (fun i => i))).
Proof.
  split; [split; reflexivity|]. split; [split; reflexivity|].
  apply (generate_map_shape (VStr "-33.86") (VNum (NFloat (FInf false)))
           (FDec true 3386 (-2)) (FInf false)
           (session two_clicks (start observed_library (fun i => i))));
    split; reflexivity.
Defined.

(** X16. Which draw gives which count: the count of a label is 1 plus the
    remainder mod 3 of the draw taken at the label's last occurrence in
    the selection; the value drawn at an earlier occurrence of the same
    label is overwritten. *)
Theorem equipment_count_is_last_draw (equipment : list string) (w : world)
    (i : nat) (k : string)
    (Hi : nth_error equipment i = Some k)
    (Hlast : forall j, i < j -> nth_error equipment j <> Some k) :
  exists counts w',
    equipment_comprehension equipment [] w = (Ok counts, w') /\
    dict_get counts k = Some (1 + Z.of_nat (rng w i mod 3))%Z.
Proof.
  destruct (equipment_comprehension_trace equipment [] w) as (counts & Hrun & _).
  eexists counts, _. split; [exact Hrun|].
  exact (equipment_comprehension_last_draw equipment [] counts w _ i k Hrun Hi Hlast).
Qed.

Lemma equipment_count_is_last_draw_witness :
  nth_error ["💧 Water Hose"; "🧯 Fire Extinguisher"; "💧 Water Hose"] 2
    = Some "💧 Water Hose" /\
  (forall j, 2 < j ->
     nth_error ["💧 Water Hose"; "🧯 Fire Extinguisher"; "💧 Water Hose"] j
       <> Some "💧 Water Hose") /\
  exists counts w',
    equipment_comprehension ["💧 Water Hose"; "🧯 Fire Extinguisher"; "💧 Water Hose"]
                            [] (start observed_library (fun i => i))
    = (Ok counts, w') /\
    dict_get counts "💧 Water Hose" = Some 3%Z.
Proof.
  assert (H : forall j, 2 < j ->
            nth_error ["💧 Water Hose"; "🧯 Fire Extinguisher"; "💧 Water Hose"] j
              <> Some "💧 Water Hose").
  { intros j Hj. destruct j as [|[|[|j]]]; try lia. destruct j; discriminate. }
  split; [reflexivity|]. split; [exact H|].
  exact (equipment_count_is_last_draw
           ["💧 Water Hose"; "🧯 Fire Extinguisher"; "💧 Water Hose"]
           (start observed_library (fun i => i)) 2 "💧 Water Hose" eq_refl H).
Defined.

(** X17. Blanks around a coordinate do not matter to the map: a text with
    spaces before and after it is converted like the text itself, so
    [generate_map] does the same with both. *)
Theorem generate_map_ignores_blanks (s t : string) (n m n' m' : nat) (w : world) :
  generate_map (VStr (blanks n ++ s ++ blanks m))
               (VStr (blanks n' ++ t ++ blanks m')) w
  = generate_map (VStr s) (VStr t) w.
Proof.
  rewrite !generate_map_spec. unfold map_destination.
  rewrite !py_float_blanks. reflexivity.
Qed.

(** X18. A latitude field left empty, or filled with spaces only, fails
    the request: [float] refuses it with [ValueError], so the handler
    never returns, and it ends with that [ValueError] when the values
    print and the libraries accept the history and the charts.  The record
    is in the history all the same, unless the longitude cannot be
    printed. *)
Theorem blank_latitude_fails_the_request
    (incident_type severity longitude : pyval) (equipment : list string)
    (water_used_liters : pyval) (n : nat) (w : world) :
  is_ok (fst (dispatch_incident incident_type severity (VStr (blanks n)) longitude
                equipment water_used_liters w)) = false /\
  length (incident_log
            (snd (dispatch_incident incident_type severity (VStr (blanks n))
                    longitude equipment water_used_liters w)))
  = length (incident_log w) + (if is_ok (py_str longitude) then 1 else 0) /\
  (values_print (mkCall incident_type severity (VStr (blanks n)) longitude equipment
                        water_used_liters) = true ->
   libraries_accept w (mkCall incident_type severity (VStr (blanks n)) longitude
                              equipment water_used_liters) = true ->
   fst (dispatch_incident incident_type severity (VStr (blanks n)) longitude
          equipment water_used_liters w) = Raise ValueError).
Proof.
  set (c := mkCall incident_type severity (VStr (blanks n)) longitude equipment
                   water_used_liters).
  change (dispatch_incident incident_type severity (VStr (blanks n)) longitude
            equipment water_used_liters w) with (run_call c w).
  assert (Hd : map_destination (c_latitude c) (c_longitude c) = Raise ValueError).
  { unfold map_destination. cbn [c c_latitude]. rewrite py_float_only_blanks.
    reflexivity. }
  assert (Hok : is_ok (fst (run_call c w)) = false).
  { rewrite run_call_ok, Hd. apply andb_false_r. }
  split; [exact Hok|]. split.
  - change (snd (run_call c w)) with (click w c). rewrite click_log.
    unfold history_after, stored, format_location, result_bind.
    cbn [c c_latitude c_longitude py_str].
    rewrite length_app. destruct (py_str longitude); reflexivity.
  - intros Hp Hl.
    destruct (fst (run_call c w)) as [out|e'] eqn:Hr; [discriminate Hok|].
    destruct (run_call_raises c w e' Hr) as [[Hv _]|[Hv|Hv]]; congruence.
Qed.
